(** * Fleet AI: the trading-bot scheduler and its adaptive agent

    A shallow embedding of the four classes of the simulator
    ([DataManager], [AIAgent], [TradingEngine], [FleetAIApp.importData]) and
    the properties of its specification that are stated about them.

    Conventions of the embedding.
    - A JavaScript number is a rational ([Q]); the arithmetic is exact, so
      the rounding error of IEEE doubles is not part of the model.
    - Objects that the code mutates in place are values threaded through
      the functions. The engine and the agent share one [DataManager]
      object; here it is stored once, inside the agent, and the engine
      reaches it through the agent.
    - [Date.now()] and [new Date().toISOString()] read a clock that is an
      argument [now] of every operation that stamps a record.
    - [Math.random()] reads the next sample of a stream [random : nat -> Q];
      the position in the stream is threaded by the [Rnd] monad.
    - A JavaScript exception is a [Throw] completion that carries the state
      reached when it was raised.
    - Strings that range over a fixed set (bot type, status, trade side,
      decision category, sentiment) are enumerations.
    - DOM rendering ([renderBots], [updateStats], ...) reads the state and
      writes only to the page; it is left out, as is the market refresh,
      which only replaces [marketData]. The agent's market analysis is the
      record its monitor stores; the properties below hold for every such
      record. *)

From Stdlib Require Import ZArith QArith Qminmax Qabs Qround Lia Lqa.
From stdpp Require Import base option list gmap strings pretty.

Open Scope Q_scope.

(** ** JavaScript numbers *)

Module Js.

Definition lt (x y : Q) : bool := negb (Qle_bool y x).
Definition gt (x y : Q) : bool := lt y x.

Definition ofNat (n : nat) : Q := inject_Z (Z.of_nat n).

(** [Math.round]: the nearest integer, ties towards plus infinity. *)
Definition round (x : Q) : Q := inject_Z (Qfloor (x + 0.5)).

Definition pow10 (d : nat) : Z := Z.pow 10 (Z.of_nat d).

(** [parseFloat(x.toFixed(d))]: the multiple of [10^-d] nearest to [x],
    ties away from zero. *)
Definition toFixed (d : nat) (x : Q) : Q :=
  let n := Qfloor (Qabs x * inject_Z (pow10 d) + 0.5) in
  let m := inject_Z n / inject_Z (pow10 d) in
  if lt x 0 then - m else m.

(** [xs.reduce((sum, t) => sum + f(t), 0)] *)
Definition sum {A} (f : A -> Q) (xs : list A) : Q :=
  foldl (fun acc t => acc + f t) 0 xs.

(** [xs.slice(0, n)] and, for a positive [n], [xs.slice(-n)] *)
Definition sliceTo {A} (n : nat) (xs : list A) : list A := take n xs.
Definition sliceLast {A} (n : nat) (xs : list A) : list A :=
  drop (length xs - n) xs.

Inductive Error : Type :=
| TypeError (msg : string)
| SyntaxError (msg : string).

(** How a call ends: normally, or by an exception raised in state [s]. *)
Inductive Completion (S : Type) : Type :=
| Normal (s : S)
| Throw (e : Error) (s : S).
Arguments Normal {S} s.
Arguments Throw {S} e s.

Definition bind {S} (c : Completion S) (k : S -> Completion S) : Completion S :=
  match c with
  | Normal s => k s
  | Throw e s => Throw e s
  end.

Definition state {S} (c : Completion S) : S :=
  match c with Normal s | Throw _ s => s end.

Definition raised {S} (c : Completion S) : bool :=
  match c with Normal _ => false | Throw _ _ => true end.

End Js.

(** ** Data model (data manger.js) *)

Abbreviation Time := Z.

Inductive BotType := arbitrage | momentum | market_making | scalping | ai_adaptive.
Inductive Status := active | inactive.
Inductive Side := buy | sell.
Inductive Category :=
  system | emergency | bot_control | optimization | strategy | portfolio_health.

#[global] Instance Status_eq_dec : EqDecision Status.
Proof. solve_decision. Defined.
#[global] Instance Category_eq_dec : EqDecision Category.
Proof. solve_decision. Defined.

Module Bot.
Record t : Type := mk {
  id : Z;
  name : string;
  type : BotType;
  status : Status;
  strategy : string;
  profit : Q;
  trades : nat;
  successRate : Q;
  riskLevel : Q;
  performance : Q;
}.

(** The object literal passed to [updateBot]: the fields it carries. No
    caller ever passes [id], [name], [type] or [strategy]. *)
Record updates : Type := mkUpdates {
  u_status : option Status;
  u_profit : option Q;
  u_trades : option nat;
  u_successRate : option Q;
  u_riskLevel : option Q;
  u_performance : option Q;
}.

Definition none : updates := mkUpdates None None None None None None.
Definition setStatus (s : Status) : updates :=
  mkUpdates (Some s) None None None None None.
Definition setRiskLevel (r : Q) : updates :=
  mkUpdates None None None None (Some r) None.
Definition setMetrics (p : Q) (n : nat) (sr pf : Q) : updates :=
  mkUpdates None (Some p) (Some n) (Some sr) None (Some pf).

(** [Object.assign(bot, updates)] *)
Definition assign (b : t) (u : updates) : t :=
  mk (id b) (name b) (type b)
     (default (status b) (u_status u))
     (strategy b)
     (default (profit b) (u_profit u))
     (default (trades b) (u_trades u))
     (default (successRate b) (u_successRate u))
     (default (riskLevel b) (u_riskLevel u))
     (default (performance b) (u_performance u)).
End Bot.

Module Quote.
Record t : Type := mk {
  symbol : string;
  price : Q;
  change : Q;
  volume : Q;
  timestamp : Time;
}.
End Quote.

Module Trade.
Record t : Type := mk {
  id : Z;
  botId : Z;
  botName : string;
  symbol : string;
  type : Side;
  amount : Q;
  profit : Q;
  success : bool;
  timestamp : Time;
}.
End Trade.

Module Decision.
(** [confidence] is [None] when the caller passes [undefined]. *)
Record t : Type := mk {
  id : Z;
  type : Category;
  message : string;
  confidence : option Q;
  timestamp : Time;
}.
End Decision.

Record Settings : Type := mkSettings {
  riskManagement : bool;
  autoRebalance : bool;
  maxDrawdown : Q;
  dailyTarget : Q;
}.

(** The record written under the storage key. *)
Record Snapshot : Type := mkSnapshot {
  s_bots : list Bot.t;
  s_tradingHistory : list Trade.t;
  s_aiDecisions : list Decision.t;
  s_marketData : list (string * Quote.t);
  s_settings : Settings;
}.

(** A [DataManager] with the entry of [localStorage] it writes. [marketData]
    is an object used as a map; its keys are kept in insertion order. *)
Record DataManager : Type := mkDataManager {
  bots : list Bot.t;
  tradingHistory : list Trade.t;
  aiDecisions : list Decision.t;
  marketData : list (string * Quote.t);
  settings : Settings;
  localStorage : option Snapshot;
}.

Definition defaultBots : list Bot.t :=
  [ Bot.mk 1 "Alpha Arbitrage" arbitrage inactive "Multi-Exchange Arbitrage" 0 0 0 0.3 0;
    Bot.mk 2 "Beta Momentum" momentum inactive "Trend Following" 0 0 0 0.5 0;
    Bot.mk 3 "Gamma Market Maker" market_making inactive "Liquidity Provision" 0 0 0 0.4 0;
    Bot.mk 4 "Delta Scalper" scalping inactive "High-Frequency Trading" 0 0 0 0.6 0;
    Bot.mk 5 "Epsilon AI" ai_adaptive inactive "Neural Network Adaptive" 0 0 0 0.7 0 ].

Definition defaultSettings : Settings := mkSettings true true 0.1 0.05.

Definition snapshot (dm : DataManager) : Snapshot :=
  mkSnapshot (bots dm) (tradingHistory dm) (aiDecisions dm) (marketData dm) (settings dm).

Definition saveData (dm : DataManager) : DataManager :=
  mkDataManager (bots dm) (tradingHistory dm) (aiDecisions dm) (marketData dm)
    (settings dm) (Some (snapshot dm)).

(** The manager built by the constructor when nothing is stored yet. *)
Definition defaultData : DataManager :=
  saveData (mkDataManager defaultBots [] [] [] defaultSettings None).

Definition withBots (bs : list Bot.t) (dm : DataManager) : DataManager :=
  mkDataManager bs (tradingHistory dm) (aiDecisions dm) (marketData dm)
    (settings dm) (localStorage dm).
Definition withTradingHistory (h : list Trade.t) (dm : DataManager) : DataManager :=
  mkDataManager (bots dm) h (aiDecisions dm) (marketData dm)
    (settings dm) (localStorage dm).
Definition withAiDecisions (ds : list Decision.t) (dm : DataManager) : DataManager :=
  mkDataManager (bots dm) (tradingHistory dm) ds (marketData dm)
    (settings dm) (localStorage dm).

(** [this.bots.find((b) => b.id === botId)] *)
Definition findBot (botId : Z) (bs : list Bot.t) : option (nat * Bot.t) :=
  list_find (fun b => Bot.id b = botId) bs.

Definition updateBot (botId : Z) (u : Bot.updates) (dm : DataManager)
  : DataManager * bool :=
  match findBot botId (bots dm) with
  | Some (i, bot) =>
      (saveData (withBots (<[i := Bot.assign bot u]> (bots dm)) dm), true)
  | None => (dm, false)
  end.

Definition maxTrades : nat := 1000.
Definition maxDecisions : nat := 100.

(** [unshift], then keep the first [cap] entries when there are more. *)
Definition unshiftCapped {A} (cap : nat) (x : A) (xs : list A) : list A :=
  let xs' := x :: xs in
  if (cap <? length xs')%nat then Js.sliceTo cap xs' else xs'.

(** [addTrade]: [mkTrade] is the object literal of the caller, to which the
    manager adds [id] and [timestamp]. *)
Definition addTrade (now : Time) (trade : Z -> Time -> Trade.t) (dm : DataManager)
  : DataManager :=
  saveData (withTradingHistory
              (unshiftCapped maxTrades (trade now now) (tradingHistory dm)) dm).

Definition mkDecision (c : Category) (msg : string) (conf : option Q) (now : Time)
  : Decision.t :=
  Decision.mk now c msg conf now.

Definition addAIDecision (now : Time) (c : Category) (msg : string) (conf : option Q)
  (dm : DataManager) : DataManager :=
  saveData (withAiDecisions
              (unshiftCapped maxDecisions (mkDecision c msg conf now) (aiDecisions dm)) dm).

Record Performance : Type := mkPerformance {
  totalTrades : nat;
  profitableTrades : nat;
  perfSuccessRate : Q;
  totalProfit : Q;
}.

Definition tradesOf (botId : Z) (h : list Trade.t) : list Trade.t :=
  filter (fun t => Trade.botId t = botId) h.

Definition profitable (h : list Trade.t) : list Trade.t :=
  filter (fun t => Js.gt (Trade.profit t) 0 = true) h.

Definition getBotPerformance (botId : Z) (dm : DataManager) : Performance :=
  let botTrades := tradesOf botId (tradingHistory dm) in
  let total := length botTrades in
  let wins := length (profitable botTrades) in
  mkPerformance total wins
    (if (0 <? total)%nat then Js.ofNat wins / Js.ofNat total * 100 else 0)
    (Js.sum Trade.profit botTrades).

(** [this.dataManager.bots.forEach(f)]: the callback receives the object
    stored at each index when the index is reached, so it sees what earlier
    calls have written. *)
Fixpoint forEachFrom (f : Bot.t -> DataManager -> DataManager) (i n : nat)
  (dm : DataManager) : DataManager :=
  match n with
  | O => dm
  | S n' =>
      forEachFrom f (S i) n'
        (match bots dm !! i with Some bot => f bot dm | None => dm end)
  end.

Definition forEachBot (f : Bot.t -> DataManager -> DataManager) (dm : DataManager)
  : DataManager :=
  forEachFrom f 0 (length (bots dm)) dm.

(** The loop body shared by every fleet-wide update: an [updateBot] on the
    visited bot's own id, under a guard. *)
Definition updateWhen (guard : Bot.t -> bool) (u : Bot.t -> Bot.updates)
  (bot : Bot.t) (dm : DataManager) : DataManager :=
  if guard bot then fst (updateBot (Bot.id bot) (u bot) dm) else dm.

Definition isActive (bot : Bot.t) : bool := bool_decide (Bot.status bot = active).

(** ** The adaptive agent (AI agent.js) *)

Inductive Sentiment := strong_bull | bull | bear | strong_bear | neutral.

Inductive Task := marketRefresh | tradingCycle | adaptiveMonitor.

(** What [setInterval(callback, period)] registers. *)
Record Interval : Type := mkInterval { callback : Task; period : Z }.

Module Analysis.
Record t : Type := mk {
  volatility : Q;
  trend : Q;
  volume : Q;
  sentiment : Sentiment;
  timestamp : Time;
}.
End Analysis.

Module Conditions.
Record t : Type := mk {
  volatility : Q;
  trend : Q;
  volume : Q;
  marketSentiment : Q;
}.
End Conditions.

Module TradeDecision.
Record t : Type := mk {
  execute : bool;
  type : Side;
  symbol : string;
  amount : Q;
  confidence : Q;
}.
End TradeDecision.

Module Outcome.
Record t : Type := mk {
  decision : TradeDecision.t;
  profit : Q;
  timestamp : Time;
}.
End Outcome.

Record Metrics : Type := mkMetrics {
  winRate : Q;
  avgProfit : Q;
  riskAdjustedReturn : Q;
}.

Record BotModel : Type := mkBotModel {
  learningRate : Q;
  tradeHistory : list Outcome.t;
  performanceMetrics : Metrics;
  adaptationFactor : Q;
  lastOptimization : option Time;
}.

(** [marketAnalysis] is [None] for the empty object the constructor
    stores: every field of it reads as [undefined]. *)
Record AIAgent : Type := mkAIAgent {
  dataManager : DataManager;
  monitoringInterval : option Interval;
  botModels : gmap Z BotModel;
  marketAnalysis : option Analysis.t;
  overallConfidence : Q;
}.

Definition withDataManager (dm : DataManager) (a : AIAgent) : AIAgent :=
  mkAIAgent dm (monitoringInterval a) (botModels a) (marketAnalysis a)
    (overallConfidence a).
Definition withMonitoringInterval (i : option Interval) (a : AIAgent) : AIAgent :=
  mkAIAgent (dataManager a) i (botModels a) (marketAnalysis a) (overallConfidence a).
Definition withBotModels (m : gmap Z BotModel) (a : AIAgent) : AIAgent :=
  mkAIAgent (dataManager a) (monitoringInterval a) m (marketAnalysis a)
    (overallConfidence a).
Definition withMarketAnalysis (ma : option Analysis.t) (a : AIAgent) : AIAgent :=
  mkAIAgent (dataManager a) (monitoringInterval a) (botModels a) ma
    (overallConfidence a).

Definition freshModel : BotModel :=
  mkBotModel 0.1 [] (mkMetrics 0 0 0) 1 None.

Definition initializeBotModels (a : AIAgent) : AIAgent :=
  withBotModels
    (foldl (fun m bot => <[Bot.id bot := freshModel]> m) (botModels a)
       (bots (dataManager a)))
    a.

(** [new AIAgent(dataManager)] *)
Definition newAIAgent (dm : DataManager) : AIAgent :=
  initializeBotModels (mkAIAgent dm None ∅ None 75).

Definition startMonitoring (now : Time) (a : AIAgent) : AIAgent :=
  let a1 := withMonitoringInterval (Some (mkInterval adaptiveMonitor 10000)) a in
  withDataManager
    (addAIDecision now system "AI Agent started continuous market monitoring"
       (Some 95) (dataManager a1))
    a1.

Definition stopMonitoring (a : AIAgent) : AIAgent :=
  match monitoringInterval a with
  | Some _ => withMonitoringInterval None a
  | None => a
  end.

Definition calculateMarketSentiment (trend volatility : Q) : Sentiment :=
  if Js.gt trend 0.5 && Js.lt volatility 0.03 then strong_bull
  else if Js.gt trend 0.2 && Js.lt volatility 0.05 then bull
  else if Js.lt trend (-0.5) && Js.gt volatility 0.08 then strong_bear
  else if Js.lt trend (-0.2) && Js.gt volatility 0.05 then bear
  else neutral.

Definition activateAggressiveStrategies (now : Time) (a : AIAgent) : AIAgent :=
  let dm1 :=
    forEachBot
      (updateWhen isActive
         (fun bot => Bot.setRiskLevel (Qmin 0.9 (Bot.riskLevel bot + 0.1))))
      (dataManager a) in
  withDataManager
    (addAIDecision now strategy
       "Bull market detected: Activated aggressive trading strategies" (Some 80) dm1)
    a.

Definition activateDefensiveStrategies (now : Time) (a : AIAgent) : AIAgent :=
  let dm1 :=
    forEachBot
      (updateWhen isActive
         (fun bot => Bot.setRiskLevel (Qmax 0.1 (Bot.riskLevel bot - 0.15))))
      (dataManager a) in
  withDataManager
    (addAIDecision now strategy
       "Bear market detected: Activated defensive trading strategies" (Some 75) dm1)
    a.

Definition activateBalancedStrategies (now : Time) (a : AIAgent) : AIAgent :=
  withDataManager
    (addAIDecision now strategy
       "Neutral market: Maintaining balanced portfolio allocation" (Some 70)
       (dataManager a))
    a.

Definition adjustRiskParameters (adjustment : Q) (a : AIAgent) : AIAgent :=
  withDataManager
    (forEachBot
       (updateWhen isActive
          (fun bot =>
             Bot.setRiskLevel (Qmax 0.1 (Qmin 0.9 (Bot.riskLevel bot + adjustment)))))
       (dataManager a))
    a.

(** The class defines no [activateGrowthStrategies] and no
    [activateHedgingStrategies]: calling either raises a [TypeError] before
    anything is written. With the empty analysis the sentiment matches no
    case and both comparisons with [undefined] are false. *)
Definition makeStrategicDecisions (now : Time) (a : AIAgent) : Js.Completion AIAgent :=
  let afterSentiment :=
    match marketAnalysis a with
    | Some ma =>
        match Analysis.sentiment ma with
        | strong_bull => Js.Normal (activateAggressiveStrategies now a)
        | bull =>
            Js.Throw
              (Js.TypeError "this.activateGrowthStrategies is not a function") a
        | bear => Js.Normal (activateDefensiveStrategies now a)
        | strong_bear =>
            Js.Throw
              (Js.TypeError "this.activateHedgingStrategies is not a function") a
        | neutral => Js.Normal (activateBalancedStrategies now a)
        end
    | None => Js.Normal (activateBalancedStrategies now a)
    end in
  Js.bind afterSentiment (fun a1 =>
    match marketAnalysis a with
    | Some ma =>
        if Js.gt (Analysis.volatility ma) 0.08
        then Js.Normal (adjustRiskParameters (-0.1) a1)
        else if Js.lt (Analysis.volatility ma) 0.03
        then Js.Normal (adjustRiskParameters 0.05 a1)
        else Js.Normal a1
    | None => Js.Normal a1
    end).

(** *** The random source *)

(** A computation that reads [Math.random()]: it receives the samples still
    to come and returns the ones it has not read. *)
Definition Rnd (A : Type) : Type := (nat -> Q) -> A * (nat -> Q).

Definition ret {A} (x : A) : Rnd A := fun s => (x, s).
Definition bindR {A B} (c : Rnd A) (k : A -> Rnd B) : Rnd B :=
  fun s => let (x, s') := c s in k x s'.
Definition Math_random : Rnd Q := fun s => (s O, fun n => s (S n)).

Notation "'let*' x := c 'in' k" := (bindR c (fun x => k))
  (at level 10, x name, c at level 100, k at level 200).

(** A value or the exception raised instead of it. *)
Inductive Result (A : Type) : Type :=
| Value (x : A)
| Raise (e : Js.Error).
Arguments Value {A} x.
Arguments Raise {A} e.

(** *** Bot-specific methods *)

(** [bot.riskLevel] on the [undefined] that [find] returns for an unknown
    id raises; the random sample is read only when the score passes. *)
Definition shouldTrade (botId : Z) (mc : Conditions.t) (a : AIAgent)
  : Rnd (Result bool) :=
  match botModels a !! botId with
  | None => ret (Value false)
  | Some _ =>
      let performance := getBotPerformance botId (dataManager a) in
      let s1 := 0 + Conditions.volatility mc * 30 in
      let s2 := s1 + Qabs (Conditions.trend mc) * 25 in
      let s3 := s2 + Conditions.volume mc * 20 in
      let s4 := s3 + perfSuccessRate performance / 100 * 15 in
      let s5 := s4 + Qmin 10 (totalProfit performance / 100) * 10 in
      match findBot botId (bots (dataManager a)) with
      | None =>
          ret (Raise (Js.TypeError "Cannot read properties of undefined (reading 'riskLevel')"))
      | Some (_, bot) =>
          let tradeScore := s5 * Bot.riskLevel bot in
          if Js.gt tradeScore 45
          then (let* u := Math_random in ret (Value (Js.gt u 0.3)))
          else ret (Value false)
      end
  end.

Definition getTradeType (botId : Z) (mc : Conditions.t) : Side :=
  if Js.gt (Conditions.trend mc) 0 then buy else sell.

Definition getConfidence (botId : Z) (a : AIAgent) : Q :=
  let model := botModels a !! botId in
  let bot := findBot botId (bots (dataManager a)) in
  let performance := getBotPerformance botId (dataManager a) in
  match model, bot with
  | Some _, Some (_, bot) =>
      let c0 := overallConfidence a in
      let c1 := c0 + (perfSuccessRate performance - 50) / 2 in
      let c2 := c1 + Qmin 20 (totalProfit performance / 10) in
      let c3 := c2 * Bot.riskLevel bot in
      Qmax 20 (Qmin 95 c3)
  | _, _ => 50
  end.

Definition historyCap : nat := 100.
Definition minSamples : nat := 10.
Definition window : nat := 20.

Definition winning (h : list Outcome.t) : list Outcome.t :=
  filter (fun t => Js.gt (Outcome.profit t) 0 = true) h.

(** The three metrics of a list of outcomes; [x || 1] replaces a zero
    divisor by one. *)
Definition metricsOf (recentTrades : list Outcome.t) : Metrics :=
  let n := Js.ofNat (length recentTrades) in
  let total := Js.sum Outcome.profit recentTrades in
  let wr := Js.ofNat (length (winning recentTrades)) / n * 100 in
  let avg := total / n in
  let divisor := if Qeq_bool (wr / 100) 0 then 1 else wr / 100 in
  mkMetrics wr avg (avg / divisor).

Definition withTradeHistory (h : list Outcome.t) (m : BotModel) : BotModel :=
  mkBotModel (learningRate m) h (performanceMetrics m) (adaptationFactor m)
    (lastOptimization m).
Definition withPerformanceMetrics (pm : Metrics) (m : BotModel) : BotModel :=
  mkBotModel (learningRate m) (tradeHistory m) pm (adaptationFactor m)
    (lastOptimization m).
Definition withLastOptimization (t : option Time) (m : BotModel) : BotModel :=
  mkBotModel (learningRate m) (tradeHistory m) (performanceMetrics m)
    (adaptationFactor m) t.

Definition updateBotModel (botId : Z) (a : AIAgent) : AIAgent :=
  match botModels a !! botId with
  | None => a
  | Some model =>
      if (length (tradeHistory model) <? minSamples)%nat then a
      else
        let recentTrades := Js.sliceLast window (tradeHistory model) in
        withBotModels
          (<[botId := withPerformanceMetrics (metricsOf recentTrades) model]>
             (botModels a))
          a
  end.

Definition learnFromTrade (now : Time) (botId : Z) (decision : TradeDecision.t)
  (profit : Q) (a : AIAgent) : AIAgent :=
  match botModels a !! botId with
  | None => a
  | Some model =>
      let h := tradeHistory model ++ [Outcome.mk decision profit now] in
      let h' := if (historyCap <? length h)%nat then Js.sliceLast historyCap h else h in
      updateBotModel botId
        (withBotModels (<[botId := withTradeHistory h' model]> (botModels a)) a)
  end.

(** *** Manual optimisation *)

Record Optimization : Type := mkOptimization {
  success : bool;
  botName : option string;
  message : string;
  optConfidence : option Q;
}.

(** [(x * 100).toFixed(0)] *)
Definition percent (x : Q) : string :=
  pretty (Qfloor (Js.toFixed 0 (x * 100))).

(** The message is built after [updateBot] has written the new level into
    the object [bot] refers to, so both levels it prints are the new one. *)
Definition optimizeBot (now : Time) (botId : Z) (a : AIAgent)
  : AIAgent * Optimization :=
  let performance := getBotPerformance botId (dataManager a) in
  match findBot botId (bots (dataManager a)), botModels a !! botId with
  | Some (_, bot), Some model =>
      let '(dm1, optimizationText, confidence) :=
        if Js.lt (perfSuccessRate performance) 40 then
          let newRisk := Qmax 0.1 (Bot.riskLevel bot - 0.2) in
          (fst (updateBot botId (Bot.setRiskLevel newRisk) (dataManager a)),
           "Reduced risk from " +:+ percent newRisk +:+ "% to " +:+ percent newRisk
             +:+ "% due to low success rate",
           80)
        else if Js.gt (perfSuccessRate performance) 70
                && Js.gt (totalProfit performance) 50 then
          let newRisk := Qmin 0.9 (Bot.riskLevel bot + 0.15) in
          (fst (updateBot botId (Bot.setRiskLevel newRisk) (dataManager a)),
           "Increased risk from " +:+ percent newRisk +:+ "% to " +:+ percent newRisk
             +:+ "% due to strong performance",
           85)
        else
          (dataManager a,
           "Maintaining current parameters - performance within optimal range",
           70) in
      let a1 := withDataManager dm1 a in
      (withBotModels (<[botId := withLastOptimization (Some now) model]> (botModels a1)) a1,
       mkOptimization true (Some (Bot.name bot)) optimizationText (Some confidence))
  | _, _ => (a, mkOptimization false None "Bot not found" None)
  end.

(** ** The trading engine (trading engin.js) *)

(** The engine's [dataManager] is the object held by its agent. *)
Record TradingEngine : Type := mkTradingEngine {
  aiAgent : AIAgent;
  isRunning : bool;
  tradingInterval : option Interval;
  marketUpdateInterval : option Interval;
}.

Definition engineData (e : TradingEngine) : DataManager := dataManager (aiAgent e).

Definition withAgent (a : AIAgent) (e : TradingEngine) : TradingEngine :=
  mkTradingEngine a (isRunning e) (tradingInterval e) (marketUpdateInterval e).
Definition withEngineData (dm : DataManager) (e : TradingEngine) : TradingEngine :=
  withAgent (withDataManager dm (aiAgent e)) e.
Definition withRunning (b : bool) (e : TradingEngine) : TradingEngine :=
  mkTradingEngine (aiAgent e) b (tradingInterval e) (marketUpdateInterval e).
Definition withTradingInterval (i : option Interval) (e : TradingEngine) : TradingEngine :=
  mkTradingEngine (aiAgent e) (isRunning e) i (marketUpdateInterval e).

(** [new TradingEngine()] over a loaded manager. *)
Definition newTradingEngine (dm : DataManager) : TradingEngine :=
  mkTradingEngine (newAIAgent dm) false None None.

Definition startTradingCycle (e : TradingEngine) : TradingEngine :=
  withTradingInterval (Some (mkInterval tradingCycle 3000)) e.

Definition startAllBots (now : Time) (e : TradingEngine) : TradingEngine :=
  if isRunning e then e
  else
    let e1 := withRunning true e in
    let dm1 :=
      forEachBot (updateWhen (fun _ => true) (fun _ => Bot.setStatus active))
        (engineData e1) in
    let dm2 := addAIDecision now system "All trading bots activated" (Some 95) dm1 in
    let e2 := startTradingCycle (withEngineData dm2 e1) in
    withAgent (startMonitoring now (aiAgent e2)) e2.

Definition stopAllBots (now : Time) (e : TradingEngine) : TradingEngine :=
  let e1 := withRunning false e in
  let e2 :=
    match tradingInterval e1 with
    | Some _ => withTradingInterval None e1
    | None => e1
    end in
  let dm1 :=
    forEachBot (updateWhen (fun _ => true) (fun _ => Bot.setStatus inactive))
      (engineData e2) in
  let dm2 :=
    addAIDecision now emergency "EMERGENCY STOP: All trading bots deactivated"
      (Some 100) dm1 in
  let e3 := withEngineData dm2 e2 in
  withAgent (stopMonitoring (aiAgent e3)) e3.

Definition analyzeMarketConditions : Rnd Conditions.t :=
  let* v := Math_random in
  let* t := Math_random in
  let* vol := Math_random in
  let* s := Math_random in
  ret (Conditions.mk v ((t - 0.5) * 2) vol s).

(** [symbols[Math.floor(Math.random() * symbols.length)] || "BTC/USD"] *)
Definition getRandomSymbol (e : TradingEngine) : Rnd string :=
  let symbols := (marketData (engineData e)).*1 in
  let* u := Math_random in
  let i := Qfloor (u * Js.ofNat (length symbols)) in
  ret (if (i <? 0)%Z then "BTC/USD"
       else match symbols !! Z.to_nat i with
            | Some s => if bool_decide (s = "") then "BTC/USD" else s
            | None => "BTC/USD"
            end).

Definition coin (threshold : Q) : Rnd Side :=
  let* u := Math_random in
  ret (if Js.gt u threshold then buy else sell).

Definition generateTradeDecision (bot : Bot.t) (mc : Conditions.t) (e : TradingEngine)
  : Rnd (Result TradeDecision.t) :=
  let* chosen :=
    match Bot.type bot with
    | arbitrage =>
        let* type := coin 0.5 in
        ret (Value (Js.gt (Conditions.volatility mc) 0.3, type,
                    Conditions.volatility mc * 80))
    | momentum =>
        ret (Value (Js.gt (Qabs (Conditions.trend mc)) 0.2,
                    if Js.gt (Conditions.trend mc) 0 then buy else sell,
                    Qabs (Conditions.trend mc) * 90))
    | market_making =>
        let* type := coin 0.5 in
        ret (Value (Js.gt (Conditions.volume mc) 0.4, type,
                    Conditions.volume mc * 70))
    | scalping =>
        let* type := coin 0.7 in
        ret (Value (Js.gt (Conditions.volatility mc) 0.2, type,
                    Conditions.volatility mc * 85))
    | ai_adaptive =>
        let* execute := shouldTrade (Bot.id bot) mc (aiAgent e) in
        ret (match execute with
             | Value x =>
                 Value (x, getTradeType (Bot.id bot) mc,
                        getConfidence (Bot.id bot) (aiAgent e))
             | Raise err => Raise err
             end)
    end in
  match chosen with
  | Raise err => ret (Raise err)
  | Value (execute, type, confidence) =>
      let* symbol := getRandomSymbol e in
      let* u := Math_random in
      ret (Value (TradeDecision.mk (execute && Js.gt confidence 50) type symbol
                    (100 + u * 400) (Js.round confidence)))
  end.

Definition calculateTradeProfit (bot : Bot.t) (decision : TradeDecision.t) : Rnd Q :=
  let baseProfit := TradeDecision.confidence decision / 10 in
  let riskAdjustment := 1 - Bot.riskLevel bot in
  let* u := Math_random in
  let marketMultiplier := 1 + (u - 0.5) in
  let profit := baseProfit * riskAdjustment * marketMultiplier - 0.5 in
  ret (Js.toFixed 2 profit).

Definition calculatePerformanceScore (bot : Bot.t) (successRate recentProfit : Q) : Q :=
  let successWeight := 0.6 in
  let profitWeight := 0.4 in
  Js.toFixed 1 (successRate * successWeight + Qmax 0 (recentProfit * 10) * profitWeight).

(** The success rate the engine stores: the bot's entries of the trade log
    and the trade being made. *)
Definition newSuccessRate (performance : Performance) (success : bool) : Q :=
  let newTrades := S (totalTrades performance) in
  let newProfitableTrades :=
    (profitableTrades performance + (if success then 1 else 0))%nat in
  Js.ofNat newProfitableTrades / Js.ofNat newTrades * 100.

Definition recordTrade (now : Time) (bot : Bot.t) (decision : TradeDecision.t)
  (profit : Q) (e : TradingEngine) : TradingEngine :=
  let success := Js.gt profit 0 in
  let performance := getBotPerformance (Bot.id bot) (engineData e) in
  let newTrades := S (totalTrades performance) in
  let rate := newSuccessRate performance success in
  let newTotalProfit := totalProfit performance + profit in
  let dm1 :=
    fst (updateBot (Bot.id bot)
           (Bot.setMetrics newTotalProfit newTrades (Js.toFixed 2 rate)
              (calculatePerformanceScore bot rate profit))
           (engineData e)) in
  let dm2 :=
    addTrade now
      (fun id ts =>
         Trade.mk id (Bot.id bot) (Bot.name bot) (TradeDecision.symbol decision)
           (TradeDecision.type decision) (TradeDecision.amount decision) profit
           success ts)
      dm1 in
  let e1 := withEngineData dm2 e in
  withAgent (learnFromTrade now (Bot.id bot) decision profit (aiAgent e1)) e1.

(** [bot] is the object stored in the fleet when the call is made. *)
Definition executeBotTrade (now : Time) (bot : Bot.t) (e : TradingEngine)
  : Rnd (Js.Completion TradingEngine) :=
  let* marketConditions := analyzeMarketConditions in
  let* tradeDecision := generateTradeDecision bot marketConditions e in
  match tradeDecision with
  | Raise err => ret (Js.Throw err e)
  | Value decision =>
      if TradeDecision.execute decision then
        let* profit := calculateTradeProfit bot decision in
        ret (Js.Normal (recordTrade now bot decision profit e))
      else ret (Js.Normal e)
  end.

Definition activeIndices (bs : list Bot.t) : list nat :=
  List.filter (fun i => match bs !! i with Some b => isActive b | None => false end)
    (seq 0 (length bs)).

Fixpoint tradeEach (now : Time) (indices : list nat) (e : TradingEngine)
  : Rnd (Js.Completion TradingEngine) :=
  match indices with
  | [] => ret (Js.Normal e)
  | i :: rest =>
      match bots (engineData e) !! i with
      | Some bot =>
          let* c := executeBotTrade now bot e in
          match c with
          | Js.Normal e1 => tradeEach now rest e1
          | Js.Throw err e1 => ret (Js.Throw err e1)
          end
      | None => tradeEach now rest e
      end
  end.

Definition liftAgent (e : TradingEngine) (c : Js.Completion AIAgent)
  : Js.Completion TradingEngine :=
  match c with
  | Js.Normal a => Js.Normal (withAgent a e)
  | Js.Throw err a => Js.Throw err (withAgent a e)
  end.

(** The bots that are active when the cycle starts trade in fleet order;
    the agent's strategic step follows. *)
Definition executeTradingCycle (now : Time) (e : TradingEngine)
  : Rnd (Js.Completion TradingEngine) :=
  let* c := tradeEach now (activeIndices (bots (engineData e))) e in
  ret (Js.bind c (fun e1 => liftAgent e1 (makeStrategicDecisions now (aiAgent e1)))).

(** What a method hands back to its caller. *)
Inductive Returned : Type :=
| undefined
| boolean (b : bool)
| optimizationResult (o : Optimization).

Definition toggleBot (now : Time) (botId : Z) (e : TradingEngine)
  : TradingEngine * Returned :=
  match findBot botId (bots (engineData e)) with
  | Some (_, bot) =>
      let newStatus :=
        if bool_decide (Bot.status bot = active) then inactive else active in
      let dm1 := fst (updateBot botId (Bot.setStatus newStatus) (engineData e)) in
      let dm2 :=
        addAIDecision now bot_control
          (Bot.name bot +:+ " "
             +:+ (if bool_decide (newStatus = active) then "activated" else "deactivated"))
          (Some 90) dm1 in
      (withEngineData dm2 e, undefined)
  | None => (e, undefined)
  end.

Definition engineOptimizeBot (now : Time) (botId : Z) (e : TradingEngine)
  : TradingEngine * Returned :=
  let (a1, o) := optimizeBot now botId (aiAgent e) in
  let dm1 :=
    addAIDecision now optimization
      ("AI optimized " +:+ default "undefined" (botName o) +:+ ": " +:+ message o)
      (optConfidence o) (dataManager a1) in
  (withAgent (withDataManager dm1 a1) e, undefined).

(** ** Import of a snapshot (main appliction.js) *)

#[local] Set Warnings "-register-all".

Module Json.
(** The values [JSON.parse] produces. *)
Inductive t : Type :=
| null
| bool (b : Datatypes.bool)
| number (q : Q)
| str (s : string)
| array (items : list t)
| object (fields : list (string * t)).

Definition truthy (v : t) : Datatypes.bool :=
  match v with
  | null => false
  | bool b => b
  | number q => negb (Qeq_bool q 0)
  | str s => negb (bool_decide (s = ""))
  | array _ | object _ => true
  end.

Fixpoint lookup (key : string) (fields : list (string * t)) : option t :=
  match fields with
  | [] => None
  | (k, v) :: rest => if bool_decide (k = key) then Some v else lookup key rest
  end.

(** [data.key] for [data] other than [null]; [None] is [undefined]. None
    of the keys read here is a property of an array, a string, a number
    or a boolean. *)
Definition get (key : string) (data : t) : option t :=
  match data with
  | object fields => lookup key fields
  | _ => None
  end.
End Json.

(** The application's own [DataManager]: the import stores whatever the
    file holds under the three keys, so its fields are JSON values here. *)
Record ImportedData : Type := mkImportedData {
  i_bots : Json.t;
  i_tradingHistory : Json.t;
  i_aiDecisions : Json.t;
  i_marketData : Json.t;
  i_settings : Json.t;
  i_localStorage : option Json.t;
}.

Record FleetAIApp : Type := mkFleetAIApp {
  appData : ImportedData;
  alerts : list string;
}.

Definition importedSnapshot (d : ImportedData) : Json.t :=
  Json.object [ ("bots", i_bots d); ("tradingHistory", i_tradingHistory d);
                ("aiDecisions", i_aiDecisions d); ("marketData", i_marketData d);
                ("settings", i_settings d) ].

Definition saveImported (d : ImportedData) : ImportedData :=
  mkImportedData (i_bots d) (i_tradingHistory d) (i_aiDecisions d) (i_marketData d)
    (i_settings d) (Some (importedSnapshot d)).

Definition alert (msg : string) (app : FleetAIApp) : FleetAIApp :=
  mkFleetAIApp (appData app) (alerts app ++ [msg]).

Definition errorMessage (e : Js.Error) : string :=
  match e with Js.TypeError m | Js.SyntaxError m => m end.

(** The [catch] clause of the handler. *)
Definition importFailed (err : Js.Error) (app : FleetAIApp) : FleetAIApp :=
  alert ("Error importing data: " +:+ errorMessage err) app.

(** The [onload] handler of [importData]; [parsed] is what
    [JSON.parse(e.target.result)] yields on the file's text. Reading
    [data.bots] raises when the text is [null]. *)
Definition importData (parsed : Result Json.t) (app : FleetAIApp) : FleetAIApp :=
  match parsed with
  | Raise err => importFailed err app
  | Value Json.null =>
      importFailed
        (Js.TypeError "Cannot read properties of null (reading 'bots')") app
  | Value data =>
      match Json.get "bots" data, Json.get "tradingHistory" data,
            Json.get "aiDecisions" data with
      | Some dbots, Some dhistory, Some ddecisions =>
          if Json.truthy dbots && Json.truthy dhistory && Json.truthy ddecisions
          then
            let d := appData app in
            let d1 :=
              mkImportedData dbots dhistory ddecisions (i_marketData d)
                (i_settings d) (i_localStorage d) in
            alert "Data imported successfully!"
              (mkFleetAIApp (saveImported d1) (alerts app))
          else alert "Invalid data format." app
      | _, _, _ => alert "Invalid data format." app
      end
  end.

(** ** The rest of the three classes *)

(** *** Loading, and the overall statistics (data manger.js) *)

(** [loadData], run by the constructor: the stored record, else the
    defaults, which are then saved. The record is one [saveData] wrote. *)
Definition loadData (saved : option Snapshot) : DataManager :=
  match saved with
  | Some s =>
      mkDataManager (s_bots s) (s_tradingHistory s) (s_aiDecisions s) (s_marketData s)
        (s_settings s) (Some s)
  | None => defaultData
  end.

Definition withMarketData (md : list (string * Quote.t)) (dm : DataManager)
  : DataManager :=
  mkDataManager (bots dm) (tradingHistory dm) (aiDecisions dm) md (settings dm)
    (localStorage dm).

Module Stats.
Record t : Type := mk {
  totalProfit : Q;
  activeBots : nat;
  totalBots : nat;
  successRate : Q;
  totalTrades : nat;
}.
End Stats.

Definition getOverallStats (dm : DataManager) : Stats.t :=
  let allTrades := tradingHistory dm in
  let total := length allTrades in
  let wins := length (profitable allTrades) in
  Stats.mk (Js.sum Trade.profit allTrades)
    (length (List.filter isActive (bots dm)))
    (length (bots dm))
    (if (0 <? total)%nat then Js.ofNat wins / Js.ofNat total * 100 else 0)
    total.

(** *** The monitor of the agent (AI agent.js) *)

Definition withOverallConfidence (c : Q) (a : AIAgent) : AIAgent :=
  mkAIAgent (dataManager a) (monitoringInterval a) (botModels a) (marketAnalysis a) c.

Module Monitor.

(** [updateConfidence]: with the empty analysis every comparison is made
    with [undefined] or [NaN] and is false. *)
Definition updateConfidence (a : AIAgent) : AIAgent :=
  let base := 75 in
  let confidence :=
    match marketAnalysis a with
    | Some ma =>
        let c1 := if Js.lt (Analysis.volatility ma) 0.04 then base + 10 else base in
        let c2 := if Js.gt (Qabs (Analysis.trend ma)) 0.3 then c1 + 5 else c1 in
        let c3 := if Js.gt (Analysis.volume ma) 0.7 then c2 + 5 else c2 in
        if Js.gt (Analysis.volatility ma) 0.08 then c3 - 15 else c3
    | None => base
    end in
  withOverallConfidence (Qmax 20 (Qmin 95 confidence)) a.

(** [Object.values(marketData)] *)
Definition assets (dm : DataManager) : list Quote.t := (marketData dm).*2.

(** [analyzeMarketConditions] of the agent, on a snapshot that holds at
    least one quote. With no quote every mean is [0 / 0], which is [NaN]
    and not a number of this model: the result is [None] then. *)
Definition analyzeMarketConditions (now : Time) (a : AIAgent) : option AIAgent :=
  let quotes := assets (dataManager a) in
  match quotes with
  | [] => None
  | _ :: _ =>
      let count := Js.ofNat (length quotes) in
      let totalVolatility := Js.sum (fun asset => Qabs (Quote.change asset)) quotes in
      let totalVolume := Js.sum Quote.volume quotes in
      let avgVolatility := totalVolatility / count in
      let marketTrend := Js.sum Quote.change quotes / count in
      let volumeStrength := totalVolume / (1000000 * count) in
      Some (updateConfidence
              (withMarketAnalysis
                 (Some (Analysis.mk avgVolatility marketTrend volumeStrength
                          (calculateMarketSentiment marketTrend avgVolatility) now))
                 a))
  end.

(** [detectHighCorrelation]: over an empty log the mean is [0 / 0], and
    [NaN > 0.7] is false. *)
Definition detectHighCorrelation (dm : DataManager) : bool :=
  let recentTrades := Js.sliceTo 50 (tradingHistory dm) in
  match recentTrades with
  | [] => false
  | _ :: _ =>
      let correlation :=
        Qabs (Js.sum (fun t => if Trade.success t then 1 else -1) recentTrades
              / Js.ofNat (length recentTrades)) in
      Js.gt correlation 0.7
  end.

Definition lowSuccessRate : string :=
  "Low success rate detected. Consider strategy adjustment.".
Definition manyInDrawdown : string :=
  "Multiple bots in drawdown. Review risk parameters.".
Definition highCorrelation : string :=
  "High correlation detected between bots. Diversification needed.".

(** The three checks of [assessPortfolioHealth], in the order it makes
    them. *)
Definition successRateLow (dm : DataManager) : bool :=
  Js.lt (Stats.successRate (getOverallStats dm)) 40.

Definition drawdown (dm : DataManager) : bool :=
  let activeBots := List.filter isActive (bots dm) in
  let losingBots := length (List.filter (fun bot => Js.lt (Bot.profit bot) 0) activeBots) in
  Js.gt (Js.ofNat losingBots) (Js.ofNat (length activeBots) * 0.6).

(** The score and the recommendations after the three checks. *)
Definition health (dm : DataManager) : Z * list string :=
  let s0 := (100%Z, @nil string) in
  let s1 :=
    if successRateLow dm then ((s0.1 - 30)%Z, s0.2 ++ [lowSuccessRate]) else s0 in
  let s2 :=
    if drawdown dm then ((s1.1 - 25)%Z, s1.2 ++ [manyInDrawdown]) else s1 in
  if detectHighCorrelation dm then ((s2.1 - 20)%Z, s2.2 ++ [highCorrelation]) else s2.

Definition assessPortfolioHealth (now : Time) (a : AIAgent) : AIAgent :=
  let '(healthScore, recommendations) := health (dataManager a) in
  match recommendations with
  | first :: _ =>
      if (healthScore <? 70)%Z then
        withDataManager
          (addAIDecision now portfolio_health
             ("Portfolio health: " +:+ pretty healthScore +:+ "/100. " +:+ first)
             (Some 85) (dataManager a))
          a
      else a
  | [] => a
  end.

(** The callback [startMonitoring] registers. *)
Definition tick (now : Time) (a : AIAgent) : option (Js.Completion AIAgent) :=
  a1 ← analyzeMarketConditions now a;
  Some (makeStrategicDecisions now (assessPortfolioHealth now a1)).

Definition getOverallConfidence (a : AIAgent) : Q := Js.round (overallConfidence a).

End Monitor.

(** *** The market refresh (trading engin.js) *)

Definition trackedSymbols : list string :=
  ["BTC/USD"; "ETH/USD"; "ADA/USD"; "DOT/USD"; "LINK/USD"].

Definition tableLookup (symbol : string) (table : list (string * Q)) : option Q :=
  snd <$> List.find (fun entry => bool_decide (entry.1 = symbol)) table.

(** [bases[symbol] || 100] and [volatilities[symbol] || 0.03], for a symbol
    that is not the name of a member every object inherits. *)
Definition getBasePrice (symbol : string) : Q :=
  default 100
    (tableLookup symbol
       [("BTC/USD", 45000); ("ETH/USD", 3200); ("ADA/USD", 1.2); ("DOT/USD", 25);
        ("LINK/USD", 18)]).

Definition getVolatility (symbol : string) : Q :=
  default 0.03
    (tableLookup symbol
       [("BTC/USD", 0.02); ("ETH/USD", 0.03); ("ADA/USD", 0.05); ("DOT/USD", 0.04);
        ("LINK/USD", 0.06)]).

Definition quoteOf (now : Time) (symbol : string) : Rnd Quote.t :=
  let basePrice := getBasePrice symbol in
  let volatility := getVolatility symbol in
  let* u := Math_random in
  let change := (u - 0.5) * volatility in
  let price := basePrice * (1 + change) in
  let changePercent := change * 100 in
  let* v := Math_random in
  ret (Quote.mk symbol (Js.toFixed 2 price) (Js.toFixed 2 changePercent)
         (v * 1000000) now).

Fixpoint quoteEach (now : Time) (symbols : list string)
  : Rnd (list (string * Quote.t)) :=
  match symbols with
  | [] => ret []
  | symbol :: rest =>
      let* q := quoteOf now symbol in
      let* qs := quoteEach now rest in
      ret ((symbol, q) :: qs)
  end.

Definition updateMarketData (now : Time) (e : TradingEngine) : Rnd TradingEngine :=
  let* marketData := quoteEach now trackedSymbols in
  ret (withEngineData (saveData (withMarketData marketData (engineData e))) e).

Definition startMarketUpdates (e : TradingEngine) : TradingEngine :=
  mkTradingEngine (aiAgent e) (isRunning e) (tradingInterval e)
    (Some (mkInterval marketRefresh 5000)).

Definition initialize (now : Time) (e : TradingEngine) : Rnd TradingEngine :=
  let* e1 := updateMarketData now e in
  ret (startMarketUpdates e1).

(** *** Export (main appliction.js) *)


(** * Properties *)

(** ** Sample states and checks of the model on them *)

(** The default fleet, started at time 0. *)
Definition sampleFleet : TradingEngine := startAllBots 0 (newTradingEngine defaultData).

(** Its agent, once the monitor has stored an analysis with the given
    trend and volatility. *)
Definition sampleAgent (trend volatility : Q) : AIAgent :=
  withMarketAnalysis
    (Some (Analysis.mk volatility trend 0.5 (calculateMarketSentiment trend volatility) 0))
    (aiAgent sampleFleet).

Definition sampleTrade (botId : Z) (p : Q) : Trade.t :=
  Trade.mk 0 botId "Beta Momentum" "ETH/USD" sell 100 p (Js.gt p 0) 0.

(** The sample fleet with ten logged trades of bot 2, three of them wins. *)
Definition strugglingFleet : TradingEngine :=
  withEngineData
    (saveData
       (withTradingHistory
          (replicate 3 (sampleTrade 2 1) ++ replicate 7 (sampleTrade 2 (-1)))
          (engineData sampleFleet)))
    sampleFleet.

Example sentiment_bands :
  calculateMarketSentiment 0.6 0.02 = strong_bull /\
  calculateMarketSentiment 0.3 0.04 = bull /\
  calculateMarketSentiment (-0.6) 0.09 = strong_bear /\
  calculateMarketSentiment (-0.3) 0.06 = bear /\
  calculateMarketSentiment 0.6 0.06 = neutral.
Proof. vm_compute. repeat split. Qed.

Example rounding :
  Js.toFixed 2 6.556 == 6.56 /\ Js.toFixed 2 (-0.145) == -0.15 /\
  Js.toFixed 1 86.18 == 86.2 /\ Js.round 72.5 == 73 /\ percent 0.3 = "30".
Proof. vm_compute. repeat split. Qed.

Example optimize_struggling_bot :
  let (a, o) := optimizeBot 9 2 (aiAgent strugglingFleet) in
  perfSuccessRate (getBotPerformance 2 (engineData strugglingFleet)) == 30 /\
  (Qred <$> (Bot.riskLevel <$> bots (dataManager a) !! 1%nat)) = Some (3 # 10) /\
  success o = true /\ optConfidence o = Some 80 /\
  message o = "Reduced risk from 30% to 30% due to low success rate" /\
  (lastOptimization <$> botModels a !! 2%Z) = Some (Some 9%Z).
Proof. vm_compute. repeat split. Qed.

Example stop_sample_fleet :
  let e := stopAllBots 9 sampleFleet in
  isRunning e = false /\ tradingInterval e = None /\
  monitoringInterval (aiAgent e) = None /\
  Bot.status <$> bots (engineData e) = replicate 5 inactive /\
  Decision.type <$> aiDecisions (engineData e) = [emergency; system; system].
Proof. vm_compute. repeat split. Qed.

Example start_twice :
  startAllBots 9 sampleFleet = sampleFleet.
Proof. reflexivity. Qed.

Example trade_log_is_capped :
  length
    (tradingHistory
       (addTrade 9 (fun id ts => Trade.mk id 2 "Beta Momentum" "ETH/USD" sell 100 1 true ts)
          (withTradingHistory (replicate 1000 (sampleTrade 2 1)) defaultData)))
  = 1000%nat.
Proof. vm_compute. reflexivity. Qed.

Example import_complete_snapshot :
  let app :=
    importData
      (Value (Json.object [("bots", Json.array [Json.number 1]);
                           ("tradingHistory", Json.array []);
                           ("aiDecisions", Json.array [])]))
      (mkFleetAIApp
         (mkImportedData Json.null Json.null Json.null Json.null Json.null None) []) in
  i_bots (appData app) = Json.array [Json.number 1] /\
  alerts app = ["Data imported successfully!"] /\
  is_Some (i_localStorage (appData app)).
Proof. vm_compute. repeat split. by eexists. Qed.

Example import_null :
  alerts (importData (Value Json.null) (mkFleetAIApp
            (mkImportedData Json.null Json.null Json.null Json.null Json.null None) []))
  = ["Error importing data: Cannot read properties of null (reading 'bots')"].
Proof. reflexivity. Qed.

(** ** The fleet as an array of objects found by id *)

Definition ids (bs : list Bot.t) : list Z := Bot.id <$> bs.

(** What a guarded fleet-wide update does to one bot. *)
Definition updated (guard : Bot.t -> bool) (u : Bot.t -> Bot.updates) (b : Bot.t)
  : Bot.t :=
  if guard b then Bot.assign b (u b) else b.

(** The fields no bot update touches. *)
Definition sameLogs (dm dm' : DataManager) : Prop :=
  tradingHistory dm' = tradingHistory dm /\ aiDecisions dm' = aiDecisions dm /\
  marketData dm' = marketData dm /\ settings dm' = settings dm.

(** Storage holds the current state. *)
Definition persisted (dm : DataManager) : Prop :=
  localStorage dm = Some (snapshot dm).

Lemma assign_id b u : Bot.id (Bot.assign b u) = Bot.id b.
Proof. reflexivity. Qed.

Lemma updated_id guard u b : Bot.id (updated guard u b) = Bot.id b.
Proof. unfold updated. by destruct (guard b). Qed.

Lemma ids_updated guard u bs : ids (updated guard u <$> bs) = ids bs.
Proof.
  unfold ids. rewrite <- list_fmap_compose. apply list_fmap_ext.
  intros i b _. apply updated_id.
Qed.

Lemma findBot_Some botId bs i b :
  findBot botId bs = Some (i, b) -> bs !! i = Some b /\ Bot.id b = botId.
Proof. unfold findBot. intros H. apply list_find_Some in H. tauto. Qed.

Lemma findBot_None botId bs : findBot botId bs = None <-> botId ∉ ids bs.
Proof.
  unfold findBot, ids. rewrite list_find_None, Forall_forall, list_elem_of_fmap.
  split.
  - intros H (b & -> & Hb). by apply (H b).
  - intros H b Hb Heq. apply H. by exists b.
Qed.

Lemma findBot_elem botId bs :
  botId ∈ ids bs -> exists i b, findBot botId bs = Some (i, b).
Proof.
  intros H. destruct (findBot botId bs) as [[i b]|] eqn:E; [by eauto|].
  by apply findBot_None in E.
Qed.

(** With distinct ids, [find] returns the object one started from. *)
Lemma findBot_unique bs i b :
  NoDup (ids bs) -> bs !! i = Some b -> findBot (Bot.id b) bs = Some (i, b).
Proof.
  intros Hnd Hi. unfold findBot. apply list_find_Some.
  split; [done|]. split; [done|].
  intros j y Hj Hlt Heq.
  assert (j = i) as ->; [|lia].
  eapply NoDup_lookup; [exact Hnd| |]; unfold ids; rewrite list_lookup_fmap.
  - by rewrite Hj.
  - rewrite Hi. simpl. by rewrite Heq.
Qed.

Lemma updateBot_found botId u dm i b :
  findBot botId (bots dm) = Some (i, b) ->
  updateBot botId u dm =
    (saveData (withBots (<[i := Bot.assign b u]> (bots dm)) dm), true).
Proof. intros H. unfold updateBot. by rewrite H. Qed.

Lemma updateBot_unknown botId u dm :
  botId ∉ ids (bots dm) -> updateBot botId u dm = (dm, false).
Proof. intros H. apply findBot_None in H. unfold updateBot. by rewrite H. Qed.

Lemma persisted_saveData dm : persisted (saveData dm).
Proof. reflexivity. Qed.

Lemma persisted_eq dm dm' :
  persisted dm -> persisted dm' -> bots dm' = bots dm -> sameLogs dm dm' -> dm' = dm.
Proof.
  unfold persisted, sameLogs, snapshot.
  destruct dm, dm'; simpl. intros -> -> -> (-> & -> & -> & ->). reflexivity.
Qed.

Section FleetUpdate.

Variable guard : Bot.t -> bool.
Variable u : Bot.t -> Bot.updates.

Let g := updated guard u.

(** One visit of the loop, at index [i] of a fleet [l] whose first [i]
    bots have been visited. *)
Lemma updateWhen_step (l : list Bot.t) i b dm :
  NoDup (ids l) ->
  l !! i = Some b ->
  bots dm = (g <$> take i l) ++ drop i l ->
  let dm' := updateWhen guard u b dm in
  bots dm' = (g <$> take (S i) l) ++ drop (S i) l /\
  sameLogs dm dm' /\ (dm' = dm \/ persisted dm').
Proof.
  intros Hnd Hi Hb dm'.
  assert (Hlen : length (g <$> take i l) = i).
  { rewrite length_fmap, length_take. apply lookup_lt_Some in Hi. lia. }
  assert (Hcur : bots dm !! i = Some b).
  { rewrite Hb, lookup_app_r by lia. rewrite Hlen, Nat.sub_diag.
    by rewrite lookup_drop, Nat.add_0_r. }
  assert (Hnext : drop i l = b :: drop (S i) l) by (by apply drop_S).
  assert (Htake : g <$> take (S i) l = (g <$> take i l) ++ [g b]).
  { rewrite (take_S_r _ _ _ Hi). by rewrite fmap_app. }
  subst dm'. unfold updateWhen.
  destruct (guard b) eqn:Hg.
  - assert (Hf : findBot (Bot.id b) (bots dm) = Some (i, b)).
    { apply findBot_unique; [|done].
      rewrite Hb. unfold ids. rewrite fmap_app.
      change (Bot.id <$> (g <$> take i l)) with (ids (updated guard u <$> take i l)).
      rewrite ids_updated. unfold ids. by rewrite <- fmap_app, take_drop. }
    rewrite (updateBot_found _ _ _ _ _ Hf). simpl.
    split; [|split; [by repeat split | right; apply persisted_saveData]].
    rewrite Hb, insert_app_r_alt by lia. rewrite Hlen, Nat.sub_diag, Hnext. simpl.
    rewrite Htake, <- app_assoc. simpl. unfold g at 3, updated. by rewrite Hg.
  - split; [|split; [by repeat split | by left]].
    rewrite Hb, Hnext, Htake, <- app_assoc. simpl. unfold g at 3, updated.
    by rewrite Hg.
Qed.

Lemma forEachFrom_updateWhen (l : list Bot.t) :
  NoDup (ids l) ->
  forall (n i : nat) dm,
    (i + n)%nat = length l ->
    bots dm = (g <$> take i l) ++ drop i l ->
    let dm' := forEachFrom (updateWhen guard u) i n dm in
    bots dm' = g <$> l /\ sameLogs dm dm' /\ (dm' = dm \/ persisted dm').
Proof.
  intros Hnd n. induction n as [|n IH]; intros i dm Hlen Hb; simpl.
  - rewrite Hb, take_ge, drop_ge, app_nil_r by lia.
    split; [done|]. split; [by repeat split | by left].
  - destruct (lookup_lt_is_Some_2 l i) as [b Hi]; [lia|].
    assert (Hcur : bots dm !! i = Some b).
    { rewrite Hb, lookup_app_r; rewrite length_fmap, length_take;
        [|apply lookup_lt_Some in Hi; lia].
      replace (i - i `min` length l)%nat with 0%nat by lia.
      by rewrite lookup_drop, Nat.add_0_r. }
    rewrite Hcur.
    destruct (updateWhen_step l i b dm Hnd Hi Hb) as (Hb' & Hlogs & Hsave).
    destruct (IH (S i) (updateWhen guard u b dm) ltac:(lia) Hb')
      as (Hfin & Hlogs' & Hsave').
    split; [done|]. split.
    + destruct Hlogs as (? & ? & ? & ?), Hlogs' as (? & ? & ? & ?).
      repeat split; congruence.
    + destruct Hsave' as [->|?]; [|by right].
      destruct Hsave as [->|?]; [by left | by right].
Qed.

(** The loop is a map over the fleet when ids are distinct. *)
Lemma forEachBot_updateWhen dm :
  NoDup (ids (bots dm)) ->
  let dm' := forEachBot (updateWhen guard u) dm in
  bots dm' = g <$> bots dm /\ sameLogs dm dm' /\ (dm' = dm \/ persisted dm').
Proof.
  intros Hnd. unfold forEachBot.
  apply (forEachFrom_updateWhen (bots dm) Hnd); [lia|by rewrite take_0, drop_0].
Qed.

Lemma forEachBot_persisted dm :
  NoDup (ids (bots dm)) -> persisted dm ->
  forEachBot (updateWhen guard u) dm = saveData (withBots (g <$> bots dm) dm).
Proof.
  intros Hnd Hp.
  destruct (forEachBot_updateWhen dm Hnd) as (Hb & Hlogs & Hsave).
  apply persisted_eq; [apply persisted_saveData| |done|done].
  destruct Hsave as [->|?]; done.
Qed.

End FleetUpdate.

Lemma fleetUpdate_then_decision guard u now c msg conf dm :
  NoDup (ids (bots dm)) ->
  addAIDecision now c msg conf (forEachBot (updateWhen guard u) dm) =
  saveData
    (withAiDecisions
       (unshiftCapped maxDecisions (mkDecision c msg conf now) (aiDecisions dm))
       (withBots (updated guard u <$> bots dm) dm)).
Proof.
  intros Hnd.
  destruct (forEachBot_updateWhen guard u dm Hnd) as (Hb & (Hh & Hd & Hm & Hs) & _).
  unfold addAIDecision, saveData, snapshot, withAiDecisions, withBots. simpl.
  by rewrite Hb, Hh, Hd, Hm, Hs.
Qed.

(** ** Comparisons *)

Lemma lt_true x y : Js.lt x y = true <-> x < y.
Proof.
  unfold Js.lt. rewrite negb_true_iff, <- not_true_iff_false, Qle_bool_iff.
  split; [apply Qnot_le_lt | apply Qlt_not_le].
Qed.

Lemma lt_false x y : Js.lt x y = false <-> y <= x.
Proof. unfold Js.lt. by rewrite negb_false_iff, Qle_bool_iff. Qed.

Lemma gt_true x y : Js.gt x y = true <-> y < x.
Proof. apply lt_true. Qed.

Lemma gt_false x y : Js.gt x y = false <-> x <= y.
Proof. apply lt_false. Qed.

(** A bear classification has volatility above 0.05. *)
Lemma bear_volatility trend volatility :
  calculateMarketSentiment trend volatility = bear -> 0.05 < volatility.
Proof.
  unfold calculateMarketSentiment.
  repeat match goal with
         | |- context [if ?c then _ else _] => destruct c eqn:?; try discriminate
         end.
  intros _.
  match goal with
  | H : _ && Js.gt volatility 0.05 = true |- _ =>
      apply andb_true_iff in H; destruct H as [_ H]; by apply gt_true in H
  end.
Qed.

(** Distinctness of the ids of a concrete fleet, by evaluation. *)
Ltac distinct_ids :=
  match goal with
  | |- NoDup ?l => apply (bool_decide_unpack (NoDup l)); vm_compute; exact I
  end.

(** ** Strategic decisions in a bear market *)

(** The fleet after a bear step: the defensive cut of every active bot,
    then the global nudge when volatility is above 0.08. *)
Definition bearOutcome (volatility : Q) (b : Bot.t) : Bot.t :=
  if isActive b then
    let cut := Qmax 0.1 (Bot.riskLevel b - 0.15) in
    Bot.assign b
      (Bot.setRiskLevel
         (if Js.gt volatility 0.08 then Qmax 0.1 (Qmin 0.9 (cut + -0.1)) else cut))
  else b.

Definition bearDecision (now : Time) : Decision.t :=
  mkDecision strategy "Bear market detected: Activated defensive trading strategies"
    (Some 75) now.

(** C1, as amended: in a bear market (the fleet having distinct ids)
    [makeStrategicDecisions] returns normally, replaces the risk level [r]
    of every active bot by [max(0.1, r - 0.15)], nudged further by
    [-0.1] within [0.1, 0.9] when volatility exceeds 0.08, leaves inactive
    bots as they are, and puts exactly one [strategy] decision at the head
    of the decision log. *)
Theorem bear_market_lowers_risk (now : Time) (a : AIAgent) (ma : Analysis.t) :
  marketAnalysis a = Some ma ->
  Analysis.sentiment ma =
    calculateMarketSentiment (Analysis.trend ma) (Analysis.volatility ma) ->
  Analysis.sentiment ma = bear ->
  NoDup (ids (bots (dataManager a))) ->
  exists a',
    makeStrategicDecisions now a = Js.Normal a' /\
    bots (dataManager a') =
      bearOutcome (Analysis.volatility ma) <$> bots (dataManager a) /\
    aiDecisions (dataManager a') =
      unshiftCapped maxDecisions (bearDecision now) (aiDecisions (dataManager a)) /\
    Decision.type (bearDecision now) = strategy.
Proof.
  intros Hma Hcalc Hbear Hnd.
  assert (Hvol : 0.05 < Analysis.volatility ma).
  { apply (bear_volatility (Analysis.trend ma)). congruence. }
  unfold makeStrategicDecisions. rewrite Hma, Hbear. simpl.
  unfold activateDefensiveStrategies.
  rewrite (fleetUpdate_then_decision _ _ _ _ _ _ _ Hnd).
  set (cut := updated isActive
                (fun bot => Bot.setRiskLevel (Qmax 0.1 (Bot.riskLevel bot - 0.15)))).
  destruct (Js.gt (Analysis.volatility ma) 0.08) eqn:Hhigh.
  - eexists. split; [reflexivity|].
    unfold adjustRiskParameters. simpl.
    rewrite forEachBot_persisted; [simpl| |apply persisted_saveData].
    + split; [|done].
      rewrite <- list_fmap_compose. apply list_fmap_ext. intros i b _. simpl.
      unfold bearOutcome, cut, updated. rewrite Hhigh.
      destruct b as [? ? ? [] ? ? ? ? ? ?]; reflexivity.
    + simpl. fold cut. unfold cut. by rewrite ids_updated.
  - assert (Hlow : Js.lt (Analysis.volatility ma) 0.03 = false).
    { apply lt_false. lra. }
    rewrite Hlow. eexists. split; [reflexivity|]. simpl.
    split; [|done].
    apply list_fmap_ext. intros i b _.
    unfold bearOutcome, cut, updated. by rewrite Hhigh.
Qed.

Lemma bear_market_lowers_risk_witness :
  exists a',
    makeStrategicDecisions 1 (sampleAgent (-0.3) 0.06) = Js.Normal a' /\
    bots (dataManager a') =
      bearOutcome 0.06 <$> bots (dataManager (sampleAgent (-0.3) 0.06)) /\
    aiDecisions (dataManager a') =
      unshiftCapped maxDecisions (bearDecision 1)
        (aiDecisions (dataManager (sampleAgent (-0.3) 0.06))) /\
    Decision.type (bearDecision 1) = strategy.
Proof.
  apply (bear_market_lowers_risk 1 (sampleAgent (-0.3) 0.06)
           (Analysis.mk 0.06 (-0.3) 0.5 bear 0)).
  - reflexivity.
  - reflexivity.
  - reflexivity.
  - distinct_ids.
Defined.

(** C1, as stated, fails twice. In a bear market with volatility 0.09 the
    nudge follows the cut: the active fleet with levels 0.3, 0.5, 0.4, 0.6,
    0.7 ends at 0.1, 0.25, 0.15, 0.35, 0.45, not at 0.15, 0.35, 0.25, 0.45,
    0.55. In a strong bear market the call raises, and neither a risk level
    nor the decision log changes. *)
Lemma bear_step_counterexample :
  (calculateMarketSentiment (-0.3) 0.09 = bear /\
   Js.raised (makeStrategicDecisions 1 (sampleAgent (-0.3) 0.09)) = false /\
   Qred <$> (Bot.riskLevel <$>
     bots (dataManager (Js.state (makeStrategicDecisions 1 (sampleAgent (-0.3) 0.09)))))
   = [1 # 10; 1 # 4; 3 # 20; 7 # 20; 9 # 20] /\
   Qred <$> ((fun b => Qmax 0.1 (Bot.riskLevel b - 0.15)) <$>
     bots (dataManager (sampleAgent (-0.3) 0.09)))
   = [3 # 20; 7 # 20; 1 # 4; 9 # 20; 11 # 20]) /\
  (calculateMarketSentiment (-0.6) 0.09 = strong_bear /\
   Js.raised (makeStrategicDecisions 1 (sampleAgent (-0.6) 0.09)) = true /\
   dataManager (Js.state (makeStrategicDecisions 1 (sampleAgent (-0.6) 0.09)))
   = dataManager (sampleAgent (-0.6) 0.09)).
Proof. vm_compute. repeat split. Qed.


(** ** Starting the fleet *)

Definition activated (b : Bot.t) : Bot.t := Bot.assign b (Bot.setStatus active).

Definition fleetActivated (now : Time) : Decision.t :=
  mkDecision system "All trading bots activated" (Some 95) now.

Definition monitoringStarted (now : Time) : Decision.t :=
  mkDecision system "AI Agent started continuous market monitoring" (Some 95) now.

(** C2, as amended: on an engine that is not running (the fleet having
    distinct ids) [startAllBots] sets the running flag, makes every bot
    active and changes nothing else of it, registers the trading-cycle and
    monitoring timers, and puts two [system] decisions at the head of the
    decision log: the engine's, then the one of the agent's
    [startMonitoring]. *)
Theorem start_activates_fleet (now : Time) (e : TradingEngine) :
  isRunning e = false ->
  NoDup (ids (bots (engineData e))) ->
  let e' := startAllBots now e in
  isRunning e' = true /\
  bots (engineData e') = activated <$> bots (engineData e) /\
  Forall (fun b => Bot.status b = active) (bots (engineData e')) /\
  aiDecisions (engineData e') =
    unshiftCapped maxDecisions (monitoringStarted now)
      (unshiftCapped maxDecisions (fleetActivated now) (aiDecisions (engineData e))) /\
  Decision.type (fleetActivated now) = system /\
  Decision.type (monitoringStarted now) = system /\
  tradingInterval e' = Some (mkInterval tradingCycle 3000) /\
  monitoringInterval (aiAgent e') = Some (mkInterval adaptiveMonitor 10000).
Proof.
  intros Hrun Hnd e'. subst e'. unfold startAllBots. rewrite Hrun.
  change (engineData (withRunning true e)) with (engineData e).
  rewrite (fleetUpdate_then_decision _ _ _ _ _ _ _ Hnd).
  assert (Hmap : updated (fun _ => true) (fun _ => Bot.setStatus active)
                   <$> bots (engineData e)
                 = activated <$> bots (engineData e)).
  { by apply list_fmap_ext. }
  rewrite Hmap. simpl.
  repeat split.
  apply Forall_fmap, Forall_true. by intros b.
Qed.

Lemma start_activates_fleet_witness :
  let e := newTradingEngine defaultData in
  let e' := startAllBots 7 e in
  isRunning e' = true /\
  bots (engineData e') = activated <$> bots (engineData e) /\
  Forall (fun b => Bot.status b = active) (bots (engineData e')) /\
  aiDecisions (engineData e') =
    unshiftCapped maxDecisions (monitoringStarted 7)
      (unshiftCapped maxDecisions (fleetActivated 7) (aiDecisions (engineData e))) /\
  Decision.type (fleetActivated 7) = system /\
  Decision.type (monitoringStarted 7) = system /\
  tradingInterval e' = Some (mkInterval tradingCycle 3000) /\
  monitoringInterval (aiAgent e') = Some (mkInterval adaptiveMonitor 10000).
Proof.
  apply (start_activates_fleet 7 (newTradingEngine defaultData)).
  - reflexivity.
  - distinct_ids.
Defined.

(** C2, as stated, fails: starting the default fleet, whose decision log
    is empty, leaves two [system] decisions in the log. *)
Lemma start_counterexample :
  isRunning (newTradingEngine defaultData) = false /\
  aiDecisions (engineData (newTradingEngine defaultData)) = [] /\
  (fun d => (Decision.type d, Decision.message d)) <$>
    aiDecisions (engineData (startAllBots 7 (newTradingEngine defaultData)))
  = [ (system, "AI Agent started continuous market monitoring");
      (system, "All trading bots activated") ].
Proof. vm_compute. repeat split. Qed.

(** ** Toggling one bot *)

Definition flipped (s : Status) : Status :=
  match s with active => inactive | inactive => active end.

Definition withStatus (s : Status) (b : Bot.t) : Bot.t :=
  Bot.mk (Bot.id b) (Bot.name b) (Bot.type b) s (Bot.strategy b) (Bot.profit b)
    (Bot.trades b) (Bot.successRate b) (Bot.riskLevel b) (Bot.performance b).

Definition toggleDecision (now : Time) (bot : Bot.t) : Decision.t :=
  mkDecision bot_control
    (Bot.name bot +:+ " "
       +:+ match flipped (Bot.status bot) with
           | active => "activated"
           | inactive => "deactivated"
           end)
    (Some 90) now.

(** C7: for an id [botId] of the fleet, [toggleBot] flips the status of the
    bot that [find] returns for it and changes no other field of that bot,
    leaves the bot at every other index as it is, keeps the running flag,
    the timers, the agent's models and the trade log, and puts one
    [bot_control] decision, made of the bot's name and its new state, at
    the head of the decision log. *)
Theorem toggle_flips_one_bot (now : Time) (botId : Z) (e : TradingEngine) :
  botId ∈ ids (bots (engineData e)) ->
  exists i bot,
    bots (engineData e) !! i = Some bot /\ Bot.id bot = botId /\
    let e' := fst (toggleBot now botId e) in
    bots (engineData e') =
      <[i := withStatus (flipped (Bot.status bot)) bot]> (bots (engineData e)) /\
    (forall j, j <> i -> bots (engineData e') !! j = bots (engineData e) !! j) /\
    isRunning e' = isRunning e /\
    tradingInterval e' = tradingInterval e /\
    monitoringInterval (aiAgent e') = monitoringInterval (aiAgent e) /\
    botModels (aiAgent e') = botModels (aiAgent e) /\
    tradingHistory (engineData e') = tradingHistory (engineData e) /\
    aiDecisions (engineData e') =
      unshiftCapped maxDecisions (toggleDecision now bot) (aiDecisions (engineData e)) /\
    Decision.type (toggleDecision now bot) = bot_control.
Proof.
  intros Hin. destruct (findBot_elem _ _ Hin) as (i & bot & Hf).
  destruct (findBot_Some _ _ _ _ Hf) as [Hi Hid].
  exists i, bot. split; [done|]. split; [done|].
  unfold toggleBot. rewrite Hf, (updateBot_found _ _ _ _ _ Hf).
  assert (Hbot : Bot.assign bot
                   (Bot.setStatus
                      (if bool_decide (Bot.status bot = active) then inactive else active))
                 = withStatus (flipped (Bot.status bot)) bot).
  { by destruct bot as [? ? ? [] ? ? ? ? ? ?]. }
  assert (Hmsg : (if bool_decide
                       ((if bool_decide (Bot.status bot = active)
                         then inactive else active) = active)
                  then "activated" else "deactivated")
                 = match flipped (Bot.status bot) with
                   | active => "activated"
                   | inactive => "deactivated"
                   end).
  { by destruct (Bot.status bot). }
  cbn zeta. rewrite Hbot.
  unfold toggleDecision. rewrite <- Hmsg. simpl.
  repeat split.
  intros j Hj. by rewrite list_lookup_insert_ne.
Qed.

Lemma toggle_flips_one_bot_witness :
  exists i bot,
    bots (engineData sampleFleet) !! i = Some bot /\ Bot.id bot = 3%Z /\
    let e' := fst (toggleBot 9 3 sampleFleet) in
    bots (engineData e') =
      <[i := withStatus (flipped (Bot.status bot)) bot]> (bots (engineData sampleFleet)) /\
    (forall j, j <> i ->
       bots (engineData e') !! j = bots (engineData sampleFleet) !! j) /\
    isRunning e' = isRunning sampleFleet /\
    tradingInterval e' = tradingInterval sampleFleet /\
    monitoringInterval (aiAgent e') = monitoringInterval (aiAgent sampleFleet) /\
    botModels (aiAgent e') = botModels (aiAgent sampleFleet) /\
    tradingHistory (engineData e') = tradingHistory (engineData sampleFleet) /\
    aiDecisions (engineData e') =
      unshiftCapped maxDecisions (toggleDecision 9 bot)
        (aiDecisions (engineData sampleFleet)) /\
    Decision.type (toggleDecision 9 bot) = bot_control.
Proof.
  apply (toggle_flips_one_bot 9 3 sampleFleet).
  apply (bool_decide_unpack (3%Z ∈ ids (bots (engineData sampleFleet)))).
  vm_compute. exact I.
Defined.

(** ** Unknown bot ids *)

(** A returned value that tells the caller the operation failed. *)
Definition failureIndicator (r : Returned) : bool :=
  match r with
  | undefined => false
  | boolean b => negb b
  | optimizationResult o => negb (success o)
  end.

Definition notFound : Optimization := mkOptimization false None "Bot not found" None.

(** C8, as amended: for an id that is not in the fleet, [updateBot] returns
    [false], the agent's [optimizeBot] returns the failure record with the
    message [Bot not found], and [toggleBot] returns [undefined]; each
    leaves its state as it was, and none raises. *)
Theorem unknown_bot_changes_nothing (now : Time) (botId : Z) (u : Bot.updates)
  (e : TradingEngine) :
  botId ∉ ids (bots (engineData e)) ->
  updateBot botId u (engineData e) = (engineData e, false) /\
  optimizeBot now botId (aiAgent e) = (aiAgent e, notFound) /\
  toggleBot now botId e = (e, undefined) /\
  failureIndicator (boolean (snd (updateBot botId u (engineData e)))) = true /\
  failureIndicator (optimizationResult (snd (optimizeBot now botId (aiAgent e)))) = true.
Proof.
  intros Hno. pose proof Hno as Hf. apply findBot_None in Hf.
  assert (Hopt : optimizeBot now botId (aiAgent e) = (aiAgent e, notFound)).
  { unfold optimizeBot. fold (engineData e). by rewrite Hf. }
  rewrite (updateBot_unknown _ _ _ Hno), Hopt.
  unfold toggleBot. rewrite Hf. by repeat split.
Qed.

Lemma unknown_bot_changes_nothing_witness :
  updateBot 99 (Bot.setStatus active) (engineData sampleFleet)
    = (engineData sampleFleet, false) /\
  optimizeBot 9 99 (aiAgent sampleFleet) = (aiAgent sampleFleet, notFound) /\
  toggleBot 9 99 sampleFleet = (sampleFleet, undefined) /\
  failureIndicator
    (boolean (snd (updateBot 99 (Bot.setStatus active) (engineData sampleFleet)))) = true /\
  failureIndicator
    (optimizationResult (snd (optimizeBot 9 99 (aiAgent sampleFleet)))) = true.
Proof.
  apply (unknown_bot_changes_nothing 9 99 (Bot.setStatus active) sampleFleet).
  apply (bool_decide_unpack (99%Z ∉ ids (bots (engineData sampleFleet)))).
  vm_compute. exact I.
Defined.

(** C8, as stated, fails for the toggle: on the unknown id 99 [toggleBot]
    returns [undefined], which is no failure indicator and is what it
    returns for the known id 3. *)
Lemma toggle_unknown_counterexample :
  (99%Z ∉ ids (bots (engineData sampleFleet))) /\
  (3%Z ∈ ids (bots (engineData sampleFleet))) /\
  snd (toggleBot 9 99 sampleFleet) = undefined /\
  failureIndicator (snd (toggleBot 9 99 sampleFleet)) = false /\
  snd (toggleBot 9 99 sampleFleet) = snd (toggleBot 9 3 sampleFleet).
Proof.
  split; [|split].
  - apply (bool_decide_unpack (99%Z ∉ ids (bots (engineData sampleFleet)))).
    vm_compute. exact I.
  - apply (bool_decide_unpack (3%Z ∈ ids (bots (engineData sampleFleet)))).
    vm_compute. exact I.
  - vm_compute. repeat split.
Qed.

(** ** Confidence of an unknown bot *)

(** C10: [getConfidence] is exactly 50 for an id that has no learning
    model or no bot, whatever the overall confidence and the trade log. *)
Theorem getConfidence_unknown (botId : Z) (a : AIAgent) :
  botModels a !! botId = None \/ botId ∉ ids (bots (dataManager a)) ->
  getConfidence botId a = 50.
Proof.
  intros [Hm|Hb]; unfold getConfidence.
  - by rewrite Hm.
  - apply findBot_None in Hb. rewrite Hb. by destruct (botModels a !! botId).
Qed.

Lemma getConfidence_unknown_witness :
  getConfidence 99 (aiAgent sampleFleet) = 50 /\
  getConfidence 3 (withBotModels ∅ (aiAgent sampleFleet)) = 50.
Proof.
  split.
  - apply (getConfidence_unknown 99 (aiAgent sampleFleet)). left. reflexivity.
  - apply (getConfidence_unknown 3 (withBotModels ∅ (aiAgent sampleFleet))).
    left. reflexivity.
Defined.

(** ** Import of an incomplete snapshot *)

(** C9: a snapshot object that lacks [bots], [tradingHistory] or
    [aiDecisions] is rejected with the alert [Invalid data format.]; the
    manager, storage included, is the one before the import. *)
Theorem import_rejects_incomplete (fields : list (string * Json.t)) (app : FleetAIApp) :
  Json.lookup "bots" fields = None \/
  Json.lookup "tradingHistory" fields = None \/
  Json.lookup "aiDecisions" fields = None ->
  importData (Value (Json.object fields)) app =
    mkFleetAIApp (appData app) (alerts app ++ ["Invalid data format."]).
Proof.
  intros H. unfold importData, Json.get.
  destruct (Json.lookup "bots" fields) as [b|];
    destruct (Json.lookup "tradingHistory" fields) as [h|];
    destruct (Json.lookup "aiDecisions" fields) as [d|];
    try reflexivity.
  destruct H as [H|[H|H]]; discriminate.
Qed.

Definition sampleApp : FleetAIApp :=
  mkFleetAIApp
    (saveImported
       (mkImportedData (Json.array []) (Json.array []) (Json.array [])
          (Json.object []) (Json.object [])  None))
    [].

Lemma import_rejects_incomplete_witness :
  importData
    (Value (Json.object [("bots", Json.array []); ("tradingHistory", Json.array [])]))
    sampleApp
  = mkFleetAIApp (appData sampleApp) (alerts sampleApp ++ ["Invalid data format."]).
Proof.
  apply (import_rejects_incomplete
           [("bots", Json.array []); ("tradingHistory", Json.array [])] sampleApp).
  right. right. reflexivity.
Defined.

(** ** Learning from a trade *)

(** The history after one more outcome, kept to its last [historyCap]
    entries. *)
Definition learnedHistory (now : Time) (decision : TradeDecision.t) (profit : Q)
  (model : BotModel) : list Outcome.t :=
  let h := tradeHistory model ++ [Outcome.mk decision profit now] in
  if (historyCap <? length h)%nat then Js.sliceLast historyCap h else h.

(** C6, as amended: after [learnFromTrade] on a bot that has a model, the
    model holds the extended, capped history of length [n]. When [n] is at
    least 10 its metrics are those of the last [min(20, n)] entries of that
    history; when [n] is below 10 its metrics are the ones it had. *)
Theorem learn_updates_metrics (now : Time) (botId : Z) (decision : TradeDecision.t)
  (profit : Q) (a : AIAgent) (model : BotModel) :
  botModels a !! botId = Some model ->
  exists model',
    botModels (learnFromTrade now botId decision profit a) !! botId = Some model' /\
    tradeHistory model' = learnedHistory now decision profit model /\
    let n := length (tradeHistory model') in
    let recent := Js.sliceLast window (tradeHistory model') in
    length recent = (window `min` n)%nat /\
    ((minSamples <= n)%nat -> performanceMetrics model' = metricsOf recent) /\
    ((n < minSamples)%nat -> performanceMetrics model' = performanceMetrics model).
Proof.
  intros Hm. unfold learnFromTrade. rewrite Hm.
  fold (learnedHistory now decision profit model).
  set (h := learnedHistory now decision profit model).
  unfold updateBotModel. cbn [botModels withBotModels].
  rewrite lookup_insert_eq. cbn [tradeHistory withTradeHistory].
  assert (Hlen : length (Js.sliceLast window h) = (window `min` length h)%nat).
  { unfold Js.sliceLast. rewrite length_drop. lia. }
  destruct (length h <? minSamples)%nat eqn:Hsmall.
  - apply Nat.ltb_lt in Hsmall.
    eexists. split; [cbn [botModels withBotModels]; apply lookup_insert_eq|].
    cbn [tradeHistory withTradeHistory performanceMetrics].
    split; [done|]. split; [done|]. split; [lia|done].
  - apply Nat.ltb_ge in Hsmall.
    eexists. split; [cbn [botModels withBotModels]; apply lookup_insert_eq|].
    cbn [tradeHistory withTradeHistory withPerformanceMetrics performanceMetrics].
    split; [done|]. split; [done|]. split; [done|lia].
Qed.

Definition sampleDecision : TradeDecision.t := TradeDecision.mk true buy "BTC/USD" 250 72.

Lemma learn_updates_metrics_witness :
  exists model',
    botModels (learnFromTrade 9 3 sampleDecision 5 (aiAgent sampleFleet)) !! 3%Z
      = Some model' /\
    tradeHistory model' = learnedHistory 9 sampleDecision 5 freshModel /\
    let n := length (tradeHistory model') in
    let recent := Js.sliceLast window (tradeHistory model') in
    length recent = (window `min` n)%nat /\
    ((minSamples <= n)%nat -> performanceMetrics model' = metricsOf recent) /\
    ((n < minSamples)%nat -> performanceMetrics model' = performanceMetrics freshModel).
Proof.
  apply (learn_updates_metrics 9 3 sampleDecision 5 (aiAgent sampleFleet) freshModel).
  reflexivity.
Defined.

(** C6, as stated, fails below ten entries: after the first outcome of a
    bot, a profit of 5, the window holds that one entry, whose metrics are
    a win rate of 100 and an average profit of 5, while the model still
    has the initial metrics 0, 0, 0. *)
Lemma learn_small_history_counterexample :
  let a' := learnFromTrade 9 3 sampleDecision 5 (aiAgent sampleFleet) in
  (tradeHistory <$> botModels a' !! 3%Z) = Some [Outcome.mk sampleDecision 5 9] /\
  (performanceMetrics <$> botModels a' !! 3%Z) = Some (mkMetrics 0 0 0) /\
  winRate (metricsOf (Js.sliceLast window [Outcome.mk sampleDecision 5 9])) == 100 /\
  avgProfit (metricsOf (Js.sliceLast window [Outcome.mk sampleDecision 5 9])) == 5.
Proof. vm_compute. repeat split. Qed.

(** ** The risk level stays in its range *)

Definition inRange (r : Q) : Prop := 0.1 <= r /\ r <= 0.9.

(** What can happen to the fleet between two observations: a strategic
    step of the agent under whatever analysis the monitor has stored, a
    global nudge, a manual optimisation, and a trade of the bot at some
    index being recorded. *)
Inductive Adjustment : Type :=
| strategicStep (ma : option Analysis.t)
| riskNudge (adjustment : Q)
| manualOptimize (botId : Z)
| tradeRecorded (i : nat) (decision : TradeDecision.t) (profit : Q).

(** A step that raises leaves the state it had reached. *)
Definition adjust (now : Time) (op : Adjustment) (e : TradingEngine) : TradingEngine :=
  match op with
  | strategicStep ma =>
      Js.state
        (liftAgent e (makeStrategicDecisions now (withMarketAnalysis ma (aiAgent e))))
  | riskNudge adjustment => withAgent (adjustRiskParameters adjustment (aiAgent e)) e
  | manualOptimize botId => fst (engineOptimizeBot now botId e)
  | tradeRecorded i decision profit =>
      match bots (engineData e) !! i with
      | Some bot => recordTrade now bot decision profit e
      | None => e
      end
  end.

Definition adjustAll (ops : list (Time * Adjustment)) (e : TradingEngine)
  : TradingEngine :=
  foldl (fun e1 op => adjust op.1 op.2 e1) e ops.

(** A bot keeps its id, and its risk level stays in range if it was. *)
Definition keepsRange (b b' : Bot.t) : Prop :=
  Bot.id b' = Bot.id b /\
  (inRange (Bot.riskLevel b) -> inRange (Bot.riskLevel b')).

Lemma keepsRange_refl b : keepsRange b b.
Proof. by split. Qed.

Lemma keepsRange_trans b1 b2 b3 :
  keepsRange b1 b2 -> keepsRange b2 b3 -> keepsRange b1 b3.
Proof. intros [? ?] [? ?]. split; [congruence | auto]. Qed.

Lemma clamp_inRange x : inRange (Qmax 0.1 (Qmin 0.9 x)).
Proof.
  split; [apply Q.le_max_l|].
  apply Q.max_lub; [lra | apply Q.le_min_l].
Qed.

Lemma raise_inRange r d : 0 <= d -> inRange r -> inRange (Qmin 0.9 (r + d)).
Proof.
  intros Hd [Hlo Hhi]. split; [|apply Q.le_min_l].
  apply Q.min_glb; lra.
Qed.

Lemma lower_inRange r d : 0 <= d -> inRange r -> inRange (Qmax 0.1 (r - d)).
Proof.
  intros Hd [Hlo Hhi]. split; [apply Q.le_max_l|].
  apply Q.max_lub; lra.
Qed.

Lemma keepsRange_updated guard (f : Bot.t -> Q) b :
  (inRange (Bot.riskLevel b) -> inRange (f b)) ->
  keepsRange b (updated guard (fun bot => Bot.setRiskLevel (f bot)) b).
Proof.
  intros H. unfold updated. destruct (guard b); [|apply keepsRange_refl].
  by split.
Qed.

Lemma keepsRange_fmap (g : Bot.t -> Bot.t) bs :
  (forall b, keepsRange b (g b)) -> Forall2 keepsRange bs (g <$> bs).
Proof.
  intros H. apply Forall2_fmap_r, Forall_Forall2_diag, Forall_forall.
  intros b _. apply H.
Qed.

Lemma keepsRange_ids bs bs' : Forall2 keepsRange bs bs' -> ids bs' = ids bs.
Proof.
  induction 1 as [|b b' bs bs' [Hid _] _ IH]; [done|].
  unfold ids in *. by rewrite !fmap_cons, Hid, IH.
Qed.

Lemma keepsRange_chain bs1 bs2 bs3 :
  Forall2 keepsRange bs1 bs2 -> Forall2 keepsRange bs2 bs3 ->
  Forall2 keepsRange bs1 bs3.
Proof.
  intros H12. revert bs3.
  induction H12 as [|b1 b2 bs1 bs2 Hb _ IH]; intros bs3 H23;
    inversion H23; subst; constructor; eauto using keepsRange_trans.
Qed.

(** One [updateBot], whatever id it names. *)
Lemma keepsRange_updateBot botId u dm :
  (forall i b, findBot botId (bots dm) = Some (i, b) -> keepsRange b (Bot.assign b u)) ->
  Forall2 keepsRange (bots dm) (bots (fst (updateBot botId u dm))).
Proof.
  intros H. unfold updateBot.
  destruct (findBot botId (bots dm)) as [[i b]|] eqn:Hf; simpl.
  - destruct (findBot_Some _ _ _ _ Hf) as [Hi _].
    rewrite <- (list_insert_id (bots dm) i b Hi) at 1.
    apply Forall2_insert; [|exact (H i b eq_refl)].
    apply Forall_Forall2_diag, Forall_forall. intros ? _. apply keepsRange_refl.
  - apply Forall_Forall2_diag, Forall_forall. intros ? _. apply keepsRange_refl.
Qed.

Lemma keepsRange_fleet (f : Bot.t -> Q) dm :
  NoDup (ids (bots dm)) ->
  (forall b, inRange (Bot.riskLevel b) -> inRange (f b)) ->
  Forall2 keepsRange (bots dm)
    (bots (forEachBot (updateWhen isActive (fun bot => Bot.setRiskLevel (f bot))) dm)).
Proof.
  intros Hnd Hf.
  destruct (forEachBot_updateWhen isActive (fun bot => Bot.setRiskLevel (f bot)) dm Hnd)
    as (-> & _).
  apply keepsRange_fmap. intros b. apply keepsRange_updated, Hf.
Qed.

Lemma keepsRange_adjustRisk adjustment a :
  NoDup (ids (bots (dataManager a))) ->
  Forall2 keepsRange (bots (dataManager a))
    (bots (dataManager (adjustRiskParameters adjustment a))).
Proof.
  intros Hnd. unfold adjustRiskParameters. simpl.
  apply (keepsRange_fleet
           (fun bot => Qmax 0.1 (Qmin 0.9 (Bot.riskLevel bot + adjustment))));
    [done|].
  intros b _. apply clamp_inRange.
Qed.

Lemma keepsRange_strategic now a :
  NoDup (ids (bots (dataManager a))) ->
  Forall2 keepsRange (bots (dataManager a))
    (bots (dataManager (Js.state (makeStrategicDecisions now a)))).
Proof.
  intros Hnd.
  assert (Hsame : Forall2 keepsRange (bots (dataManager a)) (bots (dataManager a))).
  { apply Forall_Forall2_diag, Forall_forall. intros ? _. apply keepsRange_refl. }
  assert (Hnudge : forall a1 d,
             Forall2 keepsRange (bots (dataManager a)) (bots (dataManager a1)) ->
             Forall2 keepsRange (bots (dataManager a))
               (bots (dataManager (adjustRiskParameters d a1)))).
  { intros a1 d H1. eapply keepsRange_chain; [exact H1|].
    apply keepsRange_adjustRisk. by rewrite (keepsRange_ids _ _ H1). }
  assert (Hrest : forall a1,
             Forall2 keepsRange (bots (dataManager a)) (bots (dataManager a1)) ->
             Forall2 keepsRange (bots (dataManager a))
               (bots (dataManager (Js.state
                  (match marketAnalysis a with
                   | Some ma =>
                       if Js.gt (Analysis.volatility ma) 0.08
                       then Js.Normal (adjustRiskParameters (-0.1) a1)
                       else if Js.lt (Analysis.volatility ma) 0.03
                       then Js.Normal (adjustRiskParameters 0.05 a1)
                       else Js.Normal a1
                   | None => Js.Normal a1
                   end))))).
  { intros a1 H1. destruct (marketAnalysis a) as [ma|]; [|done].
    destruct (Js.gt _ _); [by apply Hnudge|].
    destruct (Js.lt _ _); [by apply Hnudge|done]. }
  assert (Haggr : Forall2 keepsRange (bots (dataManager a))
                    (bots (dataManager (activateAggressiveStrategies now a)))).
  { unfold activateAggressiveStrategies. simpl.
    apply (keepsRange_fleet (fun bot => Qmin 0.9 (Bot.riskLevel bot + 0.1))); [done|].
    intros b. apply raise_inRange. lra. }
  assert (Hdef : Forall2 keepsRange (bots (dataManager a))
                   (bots (dataManager (activateDefensiveStrategies now a)))).
  { unfold activateDefensiveStrategies. simpl.
    apply (keepsRange_fleet (fun bot => Qmax 0.1 (Bot.riskLevel bot - 0.15))); [done|].
    intros b. apply lower_inRange. lra. }
  unfold makeStrategicDecisions.
  destruct (marketAnalysis a) as [ma|] eqn:Hma.
  - destruct (Analysis.sentiment ma); simpl; try done.
    + apply (Hrest (activateAggressiveStrategies now a) Haggr).
    + apply (Hrest (activateDefensiveStrategies now a) Hdef).
    + apply (Hrest (activateBalancedStrategies now a) Hsame).
  - simpl. done.
Qed.

Lemma keepsRange_same bs : Forall2 keepsRange bs bs.
Proof. apply Forall_Forall2_diag, Forall_forall. intros ? _. apply keepsRange_refl. Qed.

Lemma keepsRange_optimize now botId a :
  Forall2 keepsRange (bots (dataManager a))
    (bots (dataManager (fst (optimizeBot now botId a)))).
Proof.
  unfold optimizeBot.
  destruct (findBot botId (bots (dataManager a))) as [[j b]|] eqn:Hf;
    [|apply keepsRange_same].
  destruct (botModels a !! botId) as [model|]; [|apply keepsRange_same].
  destruct (Js.lt _ 40); [|destruct (_ && _)]; simpl.
  - apply keepsRange_updateBot. intros i b0 Hf0.
    rewrite Hf in Hf0. injection Hf0 as <- <-.
    split; [done|]. apply lower_inRange. lra.
  - apply keepsRange_updateBot. intros i b0 Hf0.
    rewrite Hf in Hf0. injection Hf0 as <- <-.
    split; [done|]. apply raise_inRange. lra.
  - apply keepsRange_same.
Qed.

Lemma learnFromTrade_dataManager now botId decision profit a :
  dataManager (learnFromTrade now botId decision profit a) = dataManager a.
Proof.
  unfold learnFromTrade. destruct (botModels a !! botId); [|done].
  unfold updateBotModel. cbn [botModels withBotModels].
  rewrite lookup_insert_eq. by destruct (_ <? _)%nat.
Qed.

Lemma keepsRange_recordTrade now bot decision profit e :
  Forall2 keepsRange (bots (engineData e))
    (bots (engineData (recordTrade now bot decision profit e))).
Proof.
  unfold recordTrade, engineData. cbn [aiAgent withAgent].
  rewrite learnFromTrade_dataManager. simpl.
  apply keepsRange_updateBot. intros i b _. by split.
Qed.

Lemma keepsRange_adjust now op e :
  NoDup (ids (bots (engineData e))) ->
  Forall2 keepsRange (bots (engineData e)) (bots (engineData (adjust now op e))).
Proof.
  intros Hnd. destruct op as [ma|adjustment|botId|i decision profit]; simpl.
  - pose proof (keepsRange_strategic now (withMarketAnalysis ma (aiAgent e)) Hnd) as H.
    by destruct (makeStrategicDecisions now (withMarketAnalysis ma (aiAgent e))).
  - by apply keepsRange_adjustRisk.
  - unfold engineOptimizeBot.
    pose proof (keepsRange_optimize now botId (aiAgent e)) as H.
    by destruct (optimizeBot now botId (aiAgent e)).
  - destruct (bots (engineData e) !! i); [|apply keepsRange_same].
    apply keepsRange_recordTrade.
Qed.

Lemma keepsRange_adjustAll ops e :
  NoDup (ids (bots (engineData e))) ->
  Forall2 keepsRange (bots (engineData e)) (bots (engineData (adjustAll ops e))).
Proof.
  revert e. induction ops as [|[now op] ops IH]; intros e Hnd; simpl.
  - apply keepsRange_same.
  - pose proof (keepsRange_adjust now op e Hnd) as Hstep.
    eapply keepsRange_chain; [exact Hstep|].
    apply IH. by rewrite (keepsRange_ids _ _ Hstep).
Qed.

(** The same invariant for the whole fleet needs no assumption on ids: a
    bot may then be overwritten from another bot of the same id, but only
    with a level that is in range. *)
Definition fleetInRange (bs : list Bot.t) : Prop :=
  Forall (fun b => inRange (Bot.riskLevel b)) bs.

Lemma fleetInRange_updateBot botId u dm :
  fleetInRange (bots dm) ->
  (forall r, Bot.u_riskLevel u = Some r -> inRange r) ->
  fleetInRange (bots (fst (updateBot botId u dm))).
Proof.
  intros Hall Hu. unfold updateBot.
  destruct (findBot botId (bots dm)) as [[j b]|] eqn:Hf; [|done]. simpl.
  apply Forall_insert; [done|].
  destruct (findBot_Some _ _ _ _ Hf) as [Hj _].
  pose proof (Forall_lookup_1 _ _ _ _ Hall Hj) as Hb. simpl in Hb.
  cbn [Bot.assign Bot.riskLevel].
  destruct (Bot.u_riskLevel u) as [r|]; simpl; auto.
Qed.

Lemma fleetInRange_forEach guard (f : Bot.t -> Q) :
  (forall b, inRange (Bot.riskLevel b) -> inRange (f b)) ->
  forall (n i : nat) dm,
    fleetInRange (bots dm) ->
    fleetInRange
      (bots (forEachFrom (updateWhen guard (fun bot => Bot.setRiskLevel (f bot)))
               i n dm)).
Proof.
  intros Hf n. induction n as [|n IH]; intros i dm Hall; simpl; [done|].
  apply IH. destruct (bots dm !! i) as [b|] eqn:Hi; [|done].
  unfold updateWhen. destruct (guard b); [|done].
  apply fleetInRange_updateBot; [done|].
  intros r [= <-]. apply Hf. exact (Forall_lookup_1 _ _ _ _ Hall Hi).
Qed.

Lemma fleetInRange_adjustRisk adjustment a :
  fleetInRange (bots (dataManager a)) ->
  fleetInRange (bots (dataManager (adjustRiskParameters adjustment a))).
Proof.
  intros Hall. unfold adjustRiskParameters, forEachBot. simpl.
  apply (fleetInRange_forEach isActive
           (fun bot => Qmax 0.1 (Qmin 0.9 (Bot.riskLevel bot + adjustment))));
    [|done].
  intros b _. apply clamp_inRange.
Qed.

Lemma fleetInRange_strategic now a :
  fleetInRange (bots (dataManager a)) ->
  fleetInRange (bots (dataManager (Js.state (makeStrategicDecisions now a)))).
Proof.
  intros Hall.
  assert (Hrest : forall a1,
             fleetInRange (bots (dataManager a1)) ->
             fleetInRange
               (bots (dataManager (Js.state
                  (match marketAnalysis a with
                   | Some ma =>
                       if Js.gt (Analysis.volatility ma) 0.08
                       then Js.Normal (adjustRiskParameters (-0.1) a1)
                       else if Js.lt (Analysis.volatility ma) 0.03
                       then Js.Normal (adjustRiskParameters 0.05 a1)
                       else Js.Normal a1
                   | None => Js.Normal a1
                   end))))).
  { intros a1 H1. destruct (marketAnalysis a) as [ma|]; [|done].
    destruct (Js.gt _ _); [by apply fleetInRange_adjustRisk|].
    destruct (Js.lt _ _); [by apply fleetInRange_adjustRisk|done]. }
  assert (Haggr : fleetInRange (bots (dataManager (activateAggressiveStrategies now a)))).
  { unfold activateAggressiveStrategies, forEachBot. simpl.
    apply (fleetInRange_forEach isActive
             (fun bot => Qmin 0.9 (Bot.riskLevel bot + 0.1))); [|done].
    intros b. apply raise_inRange. lra. }
  assert (Hdef : fleetInRange (bots (dataManager (activateDefensiveStrategies now a)))).
  { unfold activateDefensiveStrategies, forEachBot. simpl.
    apply (fleetInRange_forEach isActive
             (fun bot => Qmax 0.1 (Bot.riskLevel bot - 0.15))); [|done].
    intros b. apply lower_inRange. lra. }
  unfold makeStrategicDecisions.
  destruct (marketAnalysis a) as [ma|] eqn:Hma.
  - destruct (Analysis.sentiment ma); simpl; try done.
    + by apply Hrest.
    + by apply Hrest.
    + by apply (Hrest (activateBalancedStrategies now a)).
  - simpl. done.
Qed.

Lemma fleetInRange_optimize now botId a :
  fleetInRange (bots (dataManager a)) ->
  fleetInRange (bots (dataManager (fst (optimizeBot now botId a)))).
Proof.
  intros Hall. unfold optimizeBot.
  destruct (findBot botId (bots (dataManager a))) as [[j b]|] eqn:Hf; [|done].
  destruct (findBot_Some _ _ _ _ Hf) as [Hj _].
  pose proof (Forall_lookup_1 _ _ _ _ Hall Hj) as Hb. simpl in Hb.
  destruct (botModels a !! botId) as [model|]; [|done].
  destruct (Js.lt _ 40); [|destruct (_ && _)]; simpl; [| |done].
  - apply fleetInRange_updateBot; [done|].
    intros r [= <-]. apply lower_inRange; [lra|done].
  - apply fleetInRange_updateBot; [done|].
    intros r [= <-]. apply raise_inRange; [lra|done].
Qed.

Lemma fleetInRange_adjust now op e :
  fleetInRange (bots (engineData e)) ->
  fleetInRange (bots (engineData (adjust now op e))).
Proof.
  intros Hall. destruct op as [ma|adjustment|botId|i decision profit]; simpl.
  - pose proof (fleetInRange_strategic now (withMarketAnalysis ma (aiAgent e)) Hall) as H.
    by destruct (makeStrategicDecisions now (withMarketAnalysis ma (aiAgent e))).
  - by apply fleetInRange_adjustRisk.
  - unfold engineOptimizeBot.
    pose proof (fleetInRange_optimize now botId (aiAgent e) Hall) as H.
    by destruct (optimizeBot now botId (aiAgent e)).
  - destruct (bots (engineData e) !! i) as [bot|]; [|done].
    unfold recordTrade, engineData. cbn [aiAgent withAgent].
    rewrite learnFromTrade_dataManager. simpl.
    apply fleetInRange_updateBot; [done|]. intros r [=].
Qed.

Lemma fleetInRange_adjustAll ops e :
  fleetInRange (bots (engineData e)) ->
  fleetInRange (bots (engineData (adjustAll ops e))).
Proof.
  revert e. induction ops as [|[now op] ops IH]; intros e Hall; simpl; [done|].
  by apply IH, fleetInRange_adjust.
Qed.

(** C3: after every prefix of every sequence of strategic steps, global
    nudges and manual optimisations, with recorded trades in between, (1) a
    fleet whose risk levels are all in [0.1, 0.9] has all its risk levels
    in [0.1, 0.9], and (2) in a fleet with distinct ids, a bot whose risk
    level is in [0.1, 0.9] has a risk level in [0.1, 0.9], whatever the
    levels of the others; it stays at its index and keeps its id. A
    strategic step that raises changes no risk level. *)
Theorem riskLevel_stays_in_range (ops : list (Time * Adjustment)) (e : TradingEngine)
  (k : nat) :
  (fleetInRange (bots (engineData e)) ->
   fleetInRange (bots (engineData (adjustAll (take k ops) e)))) /\
  (NoDup (ids (bots (engineData e))) ->
   forall (i : nat) (bot : Bot.t),
     bots (engineData e) !! i = Some bot ->
     inRange (Bot.riskLevel bot) ->
     exists bot',
       bots (engineData (adjustAll (take k ops) e)) !! i = Some bot' /\
       Bot.id bot' = Bot.id bot /\
       inRange (Bot.riskLevel bot')).
Proof.
  split.
  - apply fleetInRange_adjustAll.
  - intros Hnd i bot Hi Hr.
    pose proof (keepsRange_adjustAll (take k ops) e Hnd) as H.
    destruct (Forall2_lookup_l _ _ _ _ _ H Hi) as (bot' & Hi' & Hid & Hkeep).
    exists bot'. auto.
Qed.

Definition sampleAdjustments : list (Time * Adjustment) :=
  [ (1, strategicStep (Some (Analysis.mk 0.02 0.6 0.5 strong_bull 1)));
    (2, strategicStep (Some (Analysis.mk 0.09 (-0.6) 0.5 strong_bear 2)));
    (3, tradeRecorded 4 sampleDecision (-0.14));
    (4, manualOptimize 5);
    (5, riskNudge (-2));
    (6, strategicStep (Some (Analysis.mk 0.09 (-0.3) 0.5 bear 6))) ]%Z.

(** The sample fleet with the last bot, id 5, at a level outside the
    range: bot 1 is not affected by it. *)
Definition strayFleet : TradingEngine :=
  withEngineData
    (saveData
       (withBots
          (<[4%nat := Bot.mk 5 "Epsilon AI" ai_adaptive active "Neural Network Adaptive"
                        0 0 0 1.5 0]> (bots (engineData sampleFleet)))
          (engineData sampleFleet)))
    sampleFleet.

Lemma riskLevel_stays_in_range_witness :
  fleetInRange (bots (engineData (adjustAll (take 6 sampleAdjustments) sampleFleet))) /\
  exists bot',
    bots (engineData (adjustAll (take 6 sampleAdjustments) strayFleet)) !! 0%nat
      = Some bot' /\
    Bot.id bot' = 1%Z /\
    inRange (Bot.riskLevel bot').
Proof.
  split.
  - apply (proj1 (riskLevel_stays_in_range sampleAdjustments sampleFleet 6)).
    repeat constructor; vm_compute; discriminate.
  - apply (proj2 (riskLevel_stays_in_range sampleAdjustments strayFleet 6)
             ltac:(distinct_ids) 0%nat
             (Bot.mk 1 "Alpha Arbitrage" arbitrage active "Multi-Exchange Arbitrage"
                0 0 0 0.3 0)).
    + reflexivity.
    + split; vm_compute; discriminate.
Defined.

(** ** The stored success rate *)

Lemma toFixed2_close x : Qabs (Js.toFixed 2 x - x) <= 0.005.
Proof.
  unfold Js.toFixed.
  change (inject_Z (Js.pow10 2)) with 100.
  set (a := Qabs x).
  pose proof (Qfloor_le (a * 100 + 0.5)) as Hfloor.
  pose proof (Qlt_floor (a * 100 + 0.5)) as Hnext.
  set (n := Qfloor (a * 100 + 0.5)) in *.
  rewrite inject_Z_plus in Hnext.
  change (inject_Z 1) with 1 in Hnext.
  set (t := inject_Z n) in *.
  assert (Hd : t / 100 == t * 0.01) by (unfold Qdiv; reflexivity).
  apply Qabs_Qle_condition.
  destruct (Js.lt x 0) eqn:Hs.
  - apply lt_true in Hs.
    assert (Ha : a == - x) by (apply Qabs_neg; lra).
    rewrite Hd. split; lra.
  - apply lt_false in Hs.
    assert (Ha : a == x) by (apply Qabs_pos; lra).
    rewrite Hd. split; lra.
Qed.

(** The entry [recordTrade] puts in the trade log. *)
Definition loggedTrade (now : Time) (bot : Bot.t) (decision : TradeDecision.t)
  (profit : Q) : Trade.t :=
  Trade.mk now (Bot.id bot) (Bot.name bot) (TradeDecision.symbol decision)
    (TradeDecision.type decision) (TradeDecision.amount decision) profit
    (Js.gt profit 0) now.

Lemma recordTrade_history now bot decision profit e :
  tradingHistory (engineData (recordTrade now bot decision profit e)) =
  unshiftCapped maxTrades (loggedTrade now bot decision profit)
    (tradingHistory (engineData e)).
Proof.
  unfold recordTrade, engineData. cbn [aiAgent withAgent].
  rewrite learnFromTrade_dataManager. simpl.
  unfold updateBot. by destruct (findBot _ _) as [[? ?]|].
Qed.

Lemma recordTrade_bot now bot decision profit e i :
  NoDup (ids (bots (engineData e))) ->
  bots (engineData e) !! i = Some bot ->
  let perf := getBotPerformance (Bot.id bot) (engineData e) in
  let rate := newSuccessRate perf (Js.gt profit 0) in
  bots (engineData (recordTrade now bot decision profit e)) !! i =
  Some (Bot.assign bot
          (Bot.setMetrics (totalProfit perf + profit) (S (totalTrades perf))
             (Js.toFixed 2 rate) (calculatePerformanceScore bot rate profit))).
Proof.
  intros Hnd Hi perf rate.
  unfold recordTrade, engineData in *. cbn [aiAgent withAgent].
  rewrite learnFromTrade_dataManager. simpl.
  rewrite (updateBot_found _ _ _ i bot) by (by apply findBot_unique).
  simpl. apply list_lookup_insert_eq. by apply lookup_lt_Some in Hi.
Qed.

(** While nothing is evicted, the rate the engine stores is the rate of
    the log it leaves. *)
Lemma recordTrade_log_rate now bot decision profit e :
  (length (tradingHistory (engineData e)) < maxTrades)%nat ->
  perfSuccessRate
    (getBotPerformance (Bot.id bot) (engineData (recordTrade now bot decision profit e)))
  = newSuccessRate (getBotPerformance (Bot.id bot) (engineData e)) (Js.gt profit 0).
Proof.
  intros Hroom. unfold getBotPerformance. rewrite recordTrade_history.
  unfold unshiftCapped. cbn [length].
  destruct (Nat.ltb_spec maxTrades (S (length (tradingHistory (engineData e)))));
    [lia|].
  unfold newSuccessRate, tradesOf, profitable. cbn [perfSuccessRate].
  rewrite filter_cons_True by done.
  cbn [totalTrades profitableTrades length Nat.ltb Nat.leb].
  destruct (Js.gt profit 0) eqn:Hwin.
  - rewrite filter_cons_True by done. cbn [length]. by rewrite Nat.add_1_r.
  - rewrite filter_cons_False by (cbn; congruence). by rewrite Nat.add_0_r.
Qed.

(** C4, as amended: when the decision made for a bot says execute,
    [executeBotTrade] records the trade and stores for the bot, rounded to
    two decimals and so within 0.01, the rate [(p + w) / (t + 1) * 100],
    where [t] and [p] count the bot's entries and its profitable entries in
    the trade log as it is before the trade is added and [w] is 1 for a
    profit. While the log has room, that is the bot's rate over the log
    the trade leaves. Fleet ids are distinct. *)
Theorem executed_trade_successRate (now : Time) (e : TradingEngine) (i : nat)
  (bot : Bot.t) (s s2 s3 : nat -> Q) (decision : TradeDecision.t) (profit : Q) :
  NoDup (ids (bots (engineData e))) ->
  bots (engineData e) !! i = Some bot ->
  generateTradeDecision bot (analyzeMarketConditions s).1 e
    (analyzeMarketConditions s).2 = (Value decision, s2) ->
  TradeDecision.execute decision = true ->
  calculateTradeProfit bot decision s2 = (profit, s3) ->
  let perf := getBotPerformance (Bot.id bot) (engineData e) in
  let rate := newSuccessRate perf (Js.gt profit 0) in
  exists e' bot',
    executeBotTrade now bot e s = (Js.Normal e', s3) /\
    tradingHistory (engineData e') =
      unshiftCapped maxTrades (loggedTrade now bot decision profit)
        (tradingHistory (engineData e)) /\
    bots (engineData e') !! i = Some bot' /\
    Bot.successRate bot' = Js.toFixed 2 rate /\
    Qabs (Bot.successRate bot' - rate) <= 0.01 /\
    ((length (tradingHistory (engineData e)) < maxTrades)%nat ->
     perfSuccessRate (getBotPerformance (Bot.id bot) (engineData e')) = rate).
Proof.
  intros Hnd Hi Hdec Hexec Hprofit perf rate.
  exists (recordTrade now bot decision profit e). eexists.
  split; [|split; [apply recordTrade_history|]].
  - unfold executeBotTrade, bindR.
    destruct (analyzeMarketConditions s) as [mc s1]. simpl in Hdec.
    by rewrite Hdec, Hexec, Hprofit.
  - split; [by apply recordTrade_bot|]. cbn [Bot.successRate Bot.assign Bot.setMetrics
                                             Bot.u_successRate default].
    fold perf. fold rate.
    split; [done|]. split; [|apply recordTrade_log_rate].
    eapply Qle_trans; [apply toFixed2_close|]. lra.
Qed.

(** A random source that always yields 0.9: every bot that looks at
    volatility trades, with confidence above 50. *)
Definition steady : nat -> Q := fun _ => 0.9.

Definition alpha : Bot.t :=
  Bot.mk 1 "Alpha Arbitrage" arbitrage active "Multi-Exchange Arbitrage" 0 0 0 0.3 0.

Definition alphaDecision : TradeDecision.t :=
  TradeDecision.mk true buy "BTC/USD" (100 + 0.9 * 400) (Js.round (0.9 * 80)).

Definition alphaProfit : Q := (calculateTradeProfit alpha alphaDecision steady).1.

Lemma executed_trade_successRate_witness :
  let perf := getBotPerformance 1 (engineData sampleFleet) in
  let rate := newSuccessRate perf (Js.gt alphaProfit 0) in
  exists e' bot',
    executeBotTrade 1 alpha sampleFleet steady = (Js.Normal e', steady) /\
    tradingHistory (engineData e') =
      unshiftCapped maxTrades (loggedTrade 1 alpha alphaDecision alphaProfit)
        (tradingHistory (engineData sampleFleet)) /\
    bots (engineData e') !! 0%nat = Some bot' /\
    Bot.successRate bot' = Js.toFixed 2 rate /\
    Qabs (Bot.successRate bot' - rate) <= 0.01 /\
    ((length (tradingHistory (engineData sampleFleet)) < maxTrades)%nat ->
     perfSuccessRate (getBotPerformance 1 (engineData e')) = rate).
Proof.
  apply (executed_trade_successRate 1 sampleFleet 0 alpha steady steady steady
           alphaDecision alphaProfit).
  - distinct_ids.
  - reflexivity.
  - reflexivity.
  - reflexivity.
  - reflexivity.
Defined.

(** A fleet whose first bot has made a thousand trades, the oldest a loss
    and the others wins, all of them still in the trade log. *)
Definition pastTrade (p : Q) : Trade.t :=
  Trade.mk 0 1 "Alpha Arbitrage" "BTC/USD" buy 100 p (Js.gt p 0) 0.

Definition fullLog : list Trade.t := replicate 999 (pastTrade 1) ++ [pastTrade (-1)].

Definition veteran : Bot.t :=
  Bot.mk 1 "Alpha Arbitrage" arbitrage active "Multi-Exchange Arbitrage"
    998 1000 99.9 0.3 63.9.

Definition fullEngine : TradingEngine :=
  withEngineData
    (saveData
       (withTradingHistory fullLog
          (withBots (<[0%nat := veteran]> (bots (engineData sampleFleet)))
             (engineData sampleFleet))))
    sampleFleet.

(** One trading step of the bot at index 0, then a second one. *)
Definition afterOne : TradingEngine :=
  Js.state (tradeEach 1 [0%nat] fullEngine steady).1.
Definition afterTwo : TradingEngine :=
  Js.state (tradeEach 2 [0%nat] afterOne steady).1.

(** Whether the rate stored for the bot at index [i] is within 0.01 of
    [wins / total * 100]. *)
Definition rateWithin (wins total : nat) (i : nat) (e : TradingEngine) : bool :=
  match bots (engineData e) !! i with
  | Some b =>
      Qle_bool (Qabs (Bot.successRate b - Js.ofNat wins / Js.ofNat total * 100)) 0.01
  | None => false
  end.

Definition logCounts (botId : Z) (e : TradingEngine) : nat * nat :=
  let p := getBotPerformance botId (engineData e) in
  (profitableTrades p, totalTrades p).

(** C4, as stated, fails once the log is full. The bot starts with 999
    wins in 1000 logged trades and a stored rate of 99.9, which agrees. Its
    next trade, a win, evicts the logged loss: the log then counts 1000
    wins in 1000 trades, while the stored rate is 99.9. After one more win
    the stored rate is 100 and the stored count is 1001, while the bot has
    made 1002 trades, 1001 of them wins. *)
Lemma successRate_eviction_counterexample :
  length (tradingHistory (engineData fullEngine)) = 1000%nat /\
  logCounts 1 fullEngine = (999, 1000)%nat /\
  rateWithin 999 1000 0 fullEngine = true /\
  Js.raised (tradeEach 1 [0%nat] fullEngine steady).1 = false /\
  logCounts 1 afterOne = (1000, 1000)%nat /\
  (Qred <$> (Bot.successRate <$> bots (engineData afterOne) !! 0%nat)) = Some (999 # 10) /\
  rateWithin 1000 1000 0 afterOne = false /\
  (Bot.trades <$> bots (engineData afterTwo) !! 0%nat) = Some 1001%nat /\
  (Qred <$> (Bot.successRate <$> bots (engineData afterTwo) !! 0%nat)) = Some 100 /\
  rateWithin 1001 1002 0 afterTwo = false.
Proof. vm_compute. repeat split. Qed.

(** * Properties of the rest of the code *)

(** ** Every operation, in any order *)

(** What the user, the timers and the monitor can make the engine do. The
    monitor's tick is [doObserve] on the analysis it computes, then
    [doAssess], then [doStrategy]; a trading cycle and a market refresh
    come with the random samples they read. *)
Inductive Command : Type :=
| doStart
| doStop
| doToggle (botId : Z)
| doOptimize (botId : Z)
| doTradingCycle (random : nat -> Q)
| doMarketRefresh (random : nat -> Q)
| doObserve (ma : option Analysis.t)
| doAssess
| doStrategy.

(** A command that raises leaves the state it had reached. *)
Definition perform (now : Time) (c : Command) (e : TradingEngine) : TradingEngine :=
  match c with
  | doStart => startAllBots now e
  | doStop => stopAllBots now e
  | doToggle botId => fst (toggleBot now botId e)
  | doOptimize botId => fst (engineOptimizeBot now botId e)
  | doTradingCycle random => Js.state (executeTradingCycle now e random).1
  | doMarketRefresh random => (updateMarketData now e random).1
  | doObserve ma =>
      withAgent (Monitor.updateConfidence (withMarketAnalysis ma (aiAgent e))) e
  | doAssess => withAgent (Monitor.assessPortfolioHealth now (aiAgent e)) e
  | doStrategy => Js.state (liftAgent e (makeStrategicDecisions now (aiAgent e)))
  end.

Definition performAll (cs : list (Time * Command)) (e : TradingEngine) : TradingEngine :=
  foldl (fun e1 c => perform c.1 c.2 e1) e cs.

(** The tick of the monitor is three commands. *)
Lemma tick_as_commands now e c :
  Monitor.tick now (aiAgent e) = Some c ->
  exists ma,
    withAgent (Js.state c) e =
    performAll [(now, doObserve (Some ma)); (now, doAssess); (now, doStrategy)] e.
Proof.
  unfold Monitor.tick, Monitor.analyzeMarketConditions.
  destruct (Monitor.assets (dataManager (aiAgent e))) as [|q qs]; [done|].
  cbn [mbind option_bind]. intros [= <-].
  match goal with
  | |- context [withMarketAnalysis (Some ?m) _] => exists m
  end.
  unfold performAll. cbn [foldl perform fst snd aiAgent withAgent].
  by destruct (makeStrategicDecisions _ _).
Qed.

Lemma stopAllBots_data now e :
  engineData (stopAllBots now e) =
  addAIDecision now emergency "EMERGENCY STOP: All trading bots deactivated" (Some 100)
    (forEachBot (updateWhen (fun _ => true) (fun _ => Bot.setStatus inactive))
       (engineData e)).
Proof.
  destruct e as [[dm [monitor|] models ma oc] running [timer|] refresh];
    reflexivity.
Qed.

Section StoreInvariant.

(** A property of the store that its four writers keep is kept by every
    command. *)
Variable Inv : DataManager -> Prop.
Hypothesis Inv_updateBot :
  forall botId u dm, Inv dm -> Inv (fst (updateBot botId u dm)).
Hypothesis Inv_addTrade : forall now t dm, Inv dm -> Inv (addTrade now t dm).
Hypothesis Inv_addAIDecision :
  forall now c msg conf dm, Inv dm -> Inv (addAIDecision now c msg conf dm).
Hypothesis Inv_marketData :
  forall md dm, Inv dm -> Inv (saveData (withMarketData md dm)).

Lemma Inv_forEachFrom guard u (n i : nat) dm :
  Inv dm -> Inv (forEachFrom (updateWhen guard u) i n dm).
Proof.
  revert i dm. induction n as [|n IH]; intros i dm H; simpl; [done|].
  apply IH. destruct (bots dm !! i) as [b|]; [|done].
  unfold updateWhen. destruct (guard b); [by apply Inv_updateBot | done].
Qed.

Lemma Inv_forEachBot guard u dm : Inv dm -> Inv (forEachBot (updateWhen guard u) dm).
Proof. apply Inv_forEachFrom. Qed.

Lemma Inv_strategic now a :
  Inv (dataManager a) -> Inv (dataManager (Js.state (makeStrategicDecisions now a))).
Proof.
  intros H. unfold makeStrategicDecisions.
  assert (Hrest : forall a1,
             Inv (dataManager a1) ->
             Inv (dataManager (Js.state
                    (match marketAnalysis a with
                     | Some ma =>
                         if Js.gt (Analysis.volatility ma) 0.08
                         then Js.Normal (adjustRiskParameters (-0.1) a1)
                         else if Js.lt (Analysis.volatility ma) 0.03
                         then Js.Normal (adjustRiskParameters 0.05 a1)
                         else Js.Normal a1
                     | None => Js.Normal a1
                     end)))).
  { intros a1 H1. destruct (marketAnalysis a) as [ma|]; [|done].
    destruct (Js.gt _ _); [by apply Inv_forEachBot|].
    destruct (Js.lt _ _); [by apply Inv_forEachBot|done]. }
  destruct (marketAnalysis a) as [ma|] eqn:Hma.
  - destruct (Analysis.sentiment ma); simpl; try done; apply Hrest; simpl;
      by apply Inv_addAIDecision; try apply Inv_forEachBot.
  - simpl. by apply Inv_addAIDecision.
Qed.

Lemma Inv_optimize now botId a :
  Inv (dataManager a) -> Inv (dataManager (fst (optimizeBot now botId a))).
Proof.
  intros H. unfold optimizeBot.
  destruct (findBot botId (bots (dataManager a))) as [[j b]|]; [|done].
  destruct (botModels a !! botId) as [model|]; [|done].
  destruct (Js.lt _ 40); [|destruct (_ && _)]; simpl; try done;
    by apply Inv_updateBot.
Qed.

Lemma Inv_recordTrade now bot decision profit e :
  Inv (engineData e) -> Inv (engineData (recordTrade now bot decision profit e)).
Proof.
  intros H. unfold recordTrade, engineData in *. cbn [aiAgent withAgent].
  rewrite learnFromTrade_dataManager. simpl.
  by apply Inv_addTrade, Inv_updateBot.
Qed.

Lemma Inv_executeBotTrade now bot e s :
  Inv (engineData e) -> Inv (engineData (Js.state (executeBotTrade now bot e s).1)).
Proof.
  intros H. unfold executeBotTrade, bindR.
  destruct (analyzeMarketConditions s) as [mc s1].
  destruct (generateTradeDecision bot mc e s1) as [[d|err] s2]; [|done].
  destruct (TradeDecision.execute d); [|done].
  destruct (calculateTradeProfit bot d s2) as [profit s3]. simpl.
  by apply Inv_recordTrade.
Qed.

Lemma Inv_tradeEach now indices e s :
  Inv (engineData e) -> Inv (engineData (Js.state (tradeEach now indices e s).1)).
Proof.
  revert e s. induction indices as [|i rest IH]; intros e s H; simpl; [done|].
  destruct (bots (engineData e) !! i) as [bot|]; [|by apply IH].
  unfold bindR. pose proof (Inv_executeBotTrade now bot e s H) as Hstep.
  destruct (executeBotTrade now bot e s) as [[e1|err e1] s1]; simpl in *;
    [by apply IH | done].
Qed.

Lemma Inv_cycle now e s :
  Inv (engineData e) -> Inv (engineData (Js.state (executeTradingCycle now e s).1)).
Proof.
  intros H. unfold executeTradingCycle, bindR.
  pose proof (Inv_tradeEach now (activeIndices (bots (engineData e))) e s H) as Ht.
  destruct (tradeEach now _ e s) as [[e1|err e1] s1]; simpl in *; [|done].
  pose proof (Inv_strategic now (aiAgent e1) Ht) as Hs.
  by destruct (makeStrategicDecisions now (aiAgent e1)).
Qed.

Lemma Inv_perform now c e :
  Inv (engineData e) -> Inv (engineData (perform now c e)).
Proof.
  intros H. destruct c; simpl.
  - unfold startAllBots. destruct (isRunning e); [done|]. simpl.
    by apply Inv_addAIDecision, Inv_addAIDecision, Inv_forEachBot.
  - rewrite stopAllBots_data. by apply Inv_addAIDecision, Inv_forEachBot.
  - unfold toggleBot.
    destruct (findBot botId (bots (engineData e))) as [[j b]|]; [|done]. simpl.
    by apply Inv_addAIDecision, Inv_updateBot.
  - unfold engineOptimizeBot.
    pose proof (Inv_optimize now botId (aiAgent e) H) as Ho.
    destruct (optimizeBot now botId (aiAgent e)) as [a1 o]. simpl in *.
    by apply Inv_addAIDecision.
  - by apply Inv_cycle.
  - unfold updateMarketData, bindR.
    destruct (quoteEach now trackedSymbols random) as [md s1]. simpl.
    by apply Inv_marketData.
  - done.
  - unfold Monitor.assessPortfolioHealth.
    destruct (Monitor.health (dataManager (aiAgent e))) as [score [|first recs]];
      [done|].
    destruct (score <? 70)%Z; [|done]. simpl. by apply Inv_addAIDecision.
  - pose proof (Inv_strategic now (aiAgent e) H) as Hs.
    by destruct (makeStrategicDecisions now (aiAgent e)).
Qed.

Lemma Inv_performAll cs e :
  Inv (engineData e) -> Inv (engineData (performAll cs e)).
Proof.
  revert e. induction cs as [|[now c] cs IH]; intros e H; simpl; [done|].
  by apply IH, Inv_perform.
Qed.

End StoreInvariant.

(** *** Storage follows the store *)

Lemma persisted_updateBot botId u dm :
  persisted dm -> persisted (fst (updateBot botId u dm)).
Proof.
  intros H. unfold updateBot. by destruct (findBot botId (bots dm)) as [[i b]|].
Qed.

Lemma loadData_persisted saved : persisted (loadData saved).
Proof. destruct saved as [[]|]; reflexivity. Qed.

Lemma loadData_snapshot dm : persisted dm -> loadData (localStorage dm) = dm.
Proof. unfold persisted. destruct dm; simpl. by intros ->. Qed.

Lemma persisted_performAll cs e :
  persisted (engineData e) -> persisted (engineData (performAll cs e)).
Proof.
  apply (Inv_performAll persisted); auto using persisted_updateBot;
    intros; apply persisted_saveData.
Qed.

(** X1: on an engine built from whatever storage holds, after any sequence
    of commands a manager loaded from storage is the manager the engine
    has: every write to the store has reached storage, whole. *)
Theorem storage_follows_every_command (saved : option Snapshot)
  (cs : list (Time * Command)) :
  let e := performAll cs (newTradingEngine (loadData saved)) in
  loadData (localStorage (engineData e)) = engineData e.
Proof.
  intros e. apply loadData_snapshot, persisted_performAll.
  apply loadData_persisted.
Qed.

(** *** The two logs stay within their caps *)

Definition withinCaps (dm : DataManager) : Prop :=
  (length (aiDecisions dm) <= maxDecisions)%nat /\
  (length (tradingHistory dm) <= maxTrades)%nat.

Lemma unshiftCapped_length {A} cap (x : A) xs :
  (0 < cap)%nat -> (length (unshiftCapped cap x xs) <= cap)%nat.
Proof.
  intros Hcap. unfold unshiftCapped, Js.sliceTo.
  destruct (Nat.ltb_spec cap (length (x :: xs))).
  - rewrite length_take. lia.
  - done.
Qed.

Lemma withinCaps_updateBot botId u dm :
  withinCaps dm -> withinCaps (fst (updateBot botId u dm)).
Proof.
  intros H. unfold updateBot. by destruct (findBot botId (bots dm)) as [[i b]|].
Qed.

(** X2: whatever the commands, a decision log of at most 100 entries and
    a trade log of at most 1000 stay so. *)
Theorem logs_stay_within_caps (cs : list (Time * Command)) (e : TradingEngine) :
  withinCaps (engineData e) -> withinCaps (engineData (performAll cs e)).
Proof.
  apply (Inv_performAll withinCaps).
  - apply withinCaps_updateBot.
  - intros now t dm [Hd Ht]. split; [done|]. simpl.
    apply unshiftCapped_length. unfold maxTrades. lia.
  - intros now c msg conf dm [Hd Ht]. split; [|done]. simpl.
    apply unshiftCapped_length. unfold maxDecisions. lia.
  - by intros md dm [Hd Ht].
Qed.

Definition busyCommands : list (Time * Command) :=
  [ (1, doMarketRefresh steady); (2, doTradingCycle steady);
    (3, doObserve (Some (Analysis.mk 0.09 (-0.3) 0.5 bear 3))); (3, doAssess);
    (3, doStrategy); (4, doToggle 2); (5, doOptimize 1); (6, doStop); (7, doStart) ]%Z.

Lemma logs_stay_within_caps_witness :
  withinCaps (engineData (performAll busyCommands sampleFleet)).
Proof.
  apply (logs_stay_within_caps busyCommands sampleFleet).
  split; vm_compute; lia.
Defined.

(** *** The fleet is fixed *)

(** What names a bot: the fields no update carries. *)
Definition identity (b : Bot.t) : Z * string * BotType * string :=
  (Bot.id b, Bot.name b, Bot.type b, Bot.strategy b).

Lemma identity_updateBot botId u dm :
  identity <$> bots (fst (updateBot botId u dm)) = identity <$> bots dm.
Proof.
  unfold updateBot. destruct (findBot botId (bots dm)) as [[i b]|] eqn:Hf; [|done].
  destruct (findBot_Some _ _ _ _ Hf) as [Hi _]. simpl.
  rewrite list_fmap_insert. apply list_insert_id.
  by rewrite list_lookup_fmap, Hi.
Qed.

Lemma identities_kept (cs : list (Time * Command)) (e : TradingEngine) :
  identity <$> bots (engineData (performAll cs e)) = identity <$> bots (engineData e).
Proof.
  apply (Inv_performAll
           (fun dm => identity <$> bots dm = identity <$> bots (engineData e)));
    [| | | |done].
  - intros botId u dm H. by rewrite identity_updateBot.
  - by intros now t dm H.
  - by intros now c msg conf dm H.
  - by intros md dm H.
Qed.

Lemma ids_kept (cs : list (Time * Command)) (e : TradingEngine) :
  ids (bots (engineData (performAll cs e))) = ids (bots (engineData e)).
Proof.
  pose proof (identities_kept cs e) as H.
  apply (f_equal (fmap (fun x : Z * string * BotType * string => x.1.1.1))) in H.
  by rewrite <- !list_fmap_compose in H.
Qed.

(** X3: no command adds, removes, reorders or renames a bot: the ids,
    names, types and strategies of the fleet are, index by index, what
    they were, and the fleet has as many bots as before. *)
Theorem fleet_is_fixed (cs : list (Time * Command)) (e : TradingEngine) :
  identity <$> bots (engineData (performAll cs e)) = identity <$> bots (engineData e) /\
  length (bots (engineData (performAll cs e))) = length (bots (engineData e)).
Proof.
  pose proof (identities_kept cs e) as H. split; [done|].
  apply (f_equal length) in H. by rewrite !length_fmap in H.
Qed.

(** ** Stopping, toggling twice, optimising an unknown bot *)

Definition deactivated (b : Bot.t) : Bot.t := Bot.assign b (Bot.setStatus inactive).

Definition emergencyStop (now : Time) : Decision.t :=
  mkDecision emergency "EMERGENCY STOP: All trading bots deactivated" (Some 100) now.

(** X4: [stopAllBots], whether the engine runs or not (the fleet having
    distinct ids), clears the running flag and the timers of the trading
    cycle and of the monitor, keeps the timer of the market refresh, makes
    every bot inactive and changes nothing else of it, and puts one
    [emergency] decision at the head of the decision log. *)
Theorem stop_deactivates_fleet (now : Time) (e : TradingEngine) :
  NoDup (ids (bots (engineData e))) ->
  let e' := stopAllBots now e in
  isRunning e' = false /\
  tradingInterval e' = None /\
  monitoringInterval (aiAgent e') = None /\
  marketUpdateInterval e' = marketUpdateInterval e /\
  bots (engineData e') = deactivated <$> bots (engineData e) /\
  aiDecisions (engineData e') =
    unshiftCapped maxDecisions (emergencyStop now) (aiDecisions (engineData e)) /\
  tradingHistory (engineData e') = tradingHistory (engineData e).
Proof.
  intros Hnd e'.
  assert (Hdata : engineData e' =
            saveData
              (withAiDecisions
                 (unshiftCapped maxDecisions (emergencyStop now)
                    (aiDecisions (engineData e)))
                 (withBots (deactivated <$> bots (engineData e)) (engineData e)))).
  { subst e'. rewrite stopAllBots_data.
    rewrite (fleetUpdate_then_decision _ _ _ _ _ _ _ Hnd).
    assert (Hmap : updated (fun _ => true) (fun _ => Bot.setStatus inactive)
                     <$> bots (engineData e)
                   = deactivated <$> bots (engineData e)).
    { by apply list_fmap_ext. }
    by rewrite Hmap. }
  rewrite Hdata. subst e'.
  destruct e as [[dm [monitor|] models ma oc] running [timer|] refresh];
    by repeat split.
Qed.

Lemma stop_deactivates_fleet_witness :
  let e' := stopAllBots 9 sampleFleet in
  isRunning e' = false /\
  tradingInterval e' = None /\
  monitoringInterval (aiAgent e') = None /\
  marketUpdateInterval e' = marketUpdateInterval sampleFleet /\
  bots (engineData e') = deactivated <$> bots (engineData sampleFleet) /\
  aiDecisions (engineData e') =
    unshiftCapped maxDecisions (emergencyStop 9) (aiDecisions (engineData sampleFleet)) /\
  tradingHistory (engineData e') = tradingHistory (engineData sampleFleet).
Proof.
  apply (stop_deactivates_fleet 9 sampleFleet). distinct_ids.
Defined.

Lemma findBot_insert botId bs i b b' :
  findBot botId bs = Some (i, b) -> Bot.id b' = botId ->
  findBot botId (<[i := b']> bs) = Some (i, b').
Proof.
  intros Hf Hid. unfold findBot in *. apply list_find_Some in Hf as (Hi & _ & Hmin).
  apply list_find_Some. split; [|split; [done|]].
  - apply list_lookup_insert_eq. by apply lookup_lt_Some in Hi.
  - intros j y Hj Hlt. apply (Hmin j y); [|done].
    by rewrite list_lookup_insert_ne in Hj by lia.
Qed.

Lemma toggleBot_found now botId e i b :
  findBot botId (bots (engineData e)) = Some (i, b) ->
  fst (toggleBot now botId e) =
  withEngineData
    (addAIDecision now bot_control (Decision.message (toggleDecision now b)) (Some 90)
       (saveData
          (withBots (<[i := withStatus (flipped (Bot.status b)) b]> (bots (engineData e)))
             (engineData e))))
    e.
Proof.
  intros Hf. unfold toggleBot. rewrite Hf, (updateBot_found _ _ _ _ _ Hf).
  by destruct b as [? ? ? [] ? ? ? ? ? ?].
Qed.

(** X5: toggling the same bot twice gives back the fleet as it was, bot
    for bot; what remains of the two calls is two [bot_control] decisions
    in the log. *)
Theorem toggle_twice_restores_fleet (t1 t2 : Time) (botId : Z) (e : TradingEngine) :
  let e1 := fst (toggleBot t1 botId e) in
  let e2 := fst (toggleBot t2 botId e1) in
  bots (engineData e2) = bots (engineData e) /\
  isRunning e2 = isRunning e /\
  (botId ∈ ids (bots (engineData e)) ->
   exists d1 d2,
     aiDecisions (engineData e2) =
       unshiftCapped maxDecisions d2
         (unshiftCapped maxDecisions d1 (aiDecisions (engineData e))) /\
     Decision.type d1 = bot_control /\ Decision.type d2 = bot_control).
Proof.
  intros e1 e2.
  destruct (findBot botId (bots (engineData e))) as [[i b]|] eqn:Hf.
  - destruct (findBot_Some _ _ _ _ Hf) as [Hi Hid].
    set (b1 := withStatus (flipped (Bot.status b)) b).
    assert (He1 : e1 = withEngineData
                         (addAIDecision t1 bot_control
                            (Decision.message (toggleDecision t1 b)) (Some 90)
                            (saveData
                               (withBots (<[i := b1]> (bots (engineData e)))
                                  (engineData e))))
                         e).
    { by apply toggleBot_found. }
    assert (Hf1 : findBot botId (bots (engineData e1)) = Some (i, b1)).
    { rewrite He1. cbn. eapply findBot_insert; [exact Hf | exact Hid]. }
    assert (He2 : e2 = withEngineData
                         (addAIDecision t2 bot_control
                            (Decision.message (toggleDecision t2 b1)) (Some 90)
                            (saveData
                               (withBots
                                  (<[i := withStatus (flipped (Bot.status b1)) b1]>
                                     (bots (engineData e1)))
                                  (engineData e1))))
                         e1).
    { by apply toggleBot_found. }
    rewrite He2, He1. cbn.
    split; [|split; [done|]].
    + rewrite list_insert_insert_eq. apply list_insert_id.
      rewrite Hi. f_equal. subst b1. by destruct b as [? ? ? [] ? ? ? ? ? ?].
    + intros _. by do 2 eexists.
  - assert (He1 : e1 = e) by (subst e1; unfold toggleBot; by rewrite Hf).
    assert (He2 : e2 = e).
    { subst e2. rewrite He1. unfold toggleBot. by rewrite Hf. }
    rewrite He2. split; [done|]. split; [done|].
    intros Hin. by apply findBot_None in Hf.
Qed.

Lemma toggle_twice_restores_fleet_witness :
  let e1 := fst (toggleBot 8 3 sampleFleet) in
  let e2 := fst (toggleBot 9 3 e1) in
  bots (engineData e2) = bots (engineData sampleFleet) /\
  exists d1 d2,
    aiDecisions (engineData e2) =
      unshiftCapped maxDecisions d2
        (unshiftCapped maxDecisions d1 (aiDecisions (engineData sampleFleet))) /\
    Decision.type d1 = bot_control /\ Decision.type d2 = bot_control.
Proof.
  destruct (toggle_twice_restores_fleet 8 9 3 sampleFleet) as (Hb & _ & Hd).
  split; [exact Hb|]. apply Hd.
  apply (bool_decide_unpack (3%Z ∈ ids (bots (engineData sampleFleet)))).
  vm_compute. exact I.
Defined.

(** X6: the engine's [optimizeBot] on an id that has no bot or no model
    still writes an [optimization] decision, with the name [undefined], the
    message [Bot not found] and no confidence; the fleet and the models
    are untouched. *)
Theorem optimize_unknown_logs_undefined (now : Time) (botId : Z) (e : TradingEngine) :
  botId ∉ ids (bots (engineData e)) \/ botModels (aiAgent e) !! botId = None ->
  engineOptimizeBot now botId e =
    (withEngineData
       (addAIDecision now optimization "AI optimized undefined: Bot not found" None
          (engineData e))
       e,
     undefined).
Proof.
  intros H. unfold engineOptimizeBot.
  assert (Ho : optimizeBot now botId (aiAgent e) = (aiAgent e, notFound)).
  { unfold optimizeBot. destruct H as [H|H].
    - apply findBot_None in H. fold (engineData e). by rewrite H.
    - rewrite H. by destruct (findBot _ _) as [[? ?]|]. }
  rewrite Ho. by destruct e as [[]].
Qed.

Lemma optimize_unknown_logs_undefined_witness :
  engineOptimizeBot 9 99 sampleFleet =
    (withEngineData
       (addAIDecision 9 optimization "AI optimized undefined: Bot not found" None
          (engineData sampleFleet))
       sampleFleet,
     undefined).
Proof.
  apply (optimize_unknown_logs_undefined 9 99 sampleFleet).
  right. reflexivity.
Defined.

(** ** The monitor *)

Lemma ofNat_pos n : (0 < n)%nat -> 0 < Js.ofNat n.
Proof. intros H. unfold Js.ofNat, Qlt. simpl. lia. Qed.

Lemma ofNat_nonneg n : 0 <= Js.ofNat n.
Proof. unfold Js.ofNat, Qle. simpl. lia. Qed.

Lemma foldl_abs_le {A} (f : A -> Q) (l : list A) (a b : Q) :
  Qabs a <= b ->
  Qabs (foldl (fun acc t => acc + f t) a l)
  <= foldl (fun acc t => acc + Qabs (f t)) b l.
Proof.
  revert a b. induction l as [|x l IH]; intros a b Hab; simpl; [done|].
  apply IH. eapply Qle_trans; [apply Qabs_triangle|].
  apply Qplus_le_compat; [done | apply Qle_refl].
Qed.

(** A mean of absolute values bounds the absolute value of the mean. *)
Lemma mean_abs_le {A} (f : A -> Q) (l : list A) :
  (0 < length l)%nat ->
  Qabs (Js.sum f l / Js.ofNat (length l))
  <= Js.sum (fun t => Qabs (f t)) l / Js.ofNat (length l).
Proof.
  intros Hlen. unfold Js.sum.
  pose proof (foldl_abs_le f l 0 0 ltac:(apply Qle_refl)) as Hsum.
  set (s := foldl (fun acc t => acc + f t) 0 l) in *.
  set (t := foldl (fun acc t => acc + Qabs (f t)) 0 l) in *.
  pose proof (ofNat_pos _ Hlen) as Hn.
  set (n := Js.ofNat (length l)) in *.
  assert (Hk : 0 <= / n) by (apply Qlt_le_weak, Qinv_lt_0_compat, Hn).
  apply Qabs_Qle_condition in Hsum as [Hlo Hhi].
  apply Qabs_Qle_condition. unfold Qdiv. split.
  - assert (E : - (t * / n) == (- t) * / n) by ring.
    rewrite E. by apply Qmult_le_compat_r.
  - by apply Qmult_le_compat_r.
Qed.

(** Case analysis on every comparison of the goal, each turned into the
    order fact it decides. *)
Ltac compare_cases :=
  repeat
    (match goal with
     | |- context [Js.gt ?x ?y] =>
         let H := fresh "Hc" in
         destruct (Js.gt x y) eqn:H; [apply gt_true in H | apply gt_false in H]
     | |- context [Js.lt ?x ?y] =>
         let H := fresh "Hc" in
         destruct (Js.lt x y) eqn:H; [apply lt_true in H | apply lt_false in H]
     end; cbn [andb orb negb]).

(** When the volatility is at least the absolute value of the trend, the
    sentiment is a function of the trend alone, and never bullish. *)
Definition sentimentOfTrend (trend : Q) : Sentiment :=
  if Js.lt trend (-0.5) then strong_bear
  else if Js.lt trend (-0.2) then bear
  else neutral.

Lemma sentiment_of_means trend volatility :
  Qabs trend <= volatility ->
  calculateMarketSentiment trend volatility = sentimentOfTrend trend.
Proof.
  intros H. apply Qabs_Qle_condition in H as [Hlo Hhi].
  unfold calculateMarketSentiment, sentimentOfTrend.
  compare_cases; try reflexivity; exfalso; lra.
Qed.

(** The means [analyzeMarketConditions] takes of a snapshot. *)
Definition meanChange (dm : DataManager) : Q :=
  Js.sum Quote.change (Monitor.assets dm) / Js.ofNat (length (Monitor.assets dm)).
Definition meanAbsChange (dm : DataManager) : Q :=
  Js.sum (fun asset => Qabs (Quote.change asset)) (Monitor.assets dm)
  / Js.ofNat (length (Monitor.assets dm)).

Lemma analyze_Some now a a' :
  Monitor.analyzeMarketConditions now a = Some a' ->
  (0 < length (Monitor.assets (dataManager a)))%nat /\
  exists volume,
    a' = Monitor.updateConfidence
           (withMarketAnalysis
              (Some (Analysis.mk (meanAbsChange (dataManager a)) (meanChange (dataManager a))
                       volume
                       (calculateMarketSentiment (meanChange (dataManager a))
                          (meanAbsChange (dataManager a)))
                       now))
              a).
Proof.
  unfold Monitor.analyzeMarketConditions, meanChange, meanAbsChange.
  destruct (Monitor.assets (dataManager a)) as [|q qs]; [done|].
  intros [= <-]. split; [simpl; lia|]. by eexists.
Qed.

Lemma means_ordered dm :
  (0 < length (Monitor.assets dm))%nat -> Qabs (meanChange dm) <= meanAbsChange dm.
Proof. apply mean_abs_le. Qed.

(** X7: whatever the quotes of a snapshot that holds at least one, the
    agent's analysis of it has a volatility at least as large as the
    absolute value of its trend; so its sentiment is [strong_bear] for a
    trend below -0.5, [bear] for a trend below -0.2 and [neutral]
    otherwise: the monitor never sees a bull market. The analysis touches
    neither the store nor the models. *)
Theorem monitor_is_never_bullish (now : Time) (a a' : AIAgent) :
  Monitor.analyzeMarketConditions now a = Some a' ->
  exists ma,
    marketAnalysis a' = Some ma /\
    Analysis.trend ma = meanChange (dataManager a) /\
    Analysis.volatility ma = meanAbsChange (dataManager a) /\
    Qabs (Analysis.trend ma) <= Analysis.volatility ma /\
    Analysis.sentiment ma =
      calculateMarketSentiment (Analysis.trend ma) (Analysis.volatility ma) /\
    Analysis.sentiment ma = sentimentOfTrend (Analysis.trend ma) /\
    Analysis.sentiment ma <> bull /\ Analysis.sentiment ma <> strong_bull /\
    dataManager a' = dataManager a /\ botModels a' = botModels a.
Proof.
  intros H. apply analyze_Some in H as (Hlen & volume & ->).
  pose proof (means_ordered _ Hlen) as Hord.
  eexists. split; [reflexivity|]. cbn [Analysis.trend Analysis.volatility Analysis.sentiment].
  rewrite (sentiment_of_means _ _ Hord).
  repeat split; try done; unfold sentimentOfTrend; by compare_cases.
Qed.

(** The sample fleet after a market refresh. *)
Definition refreshedFleet : TradingEngine := (updateMarketData 1 sampleFleet steady).1.

Definition analysedAgent : AIAgent :=
  default (aiAgent refreshedFleet)
    (Monitor.analyzeMarketConditions 2 (aiAgent refreshedFleet)).

Lemma monitor_is_never_bullish_witness :
  exists ma,
    marketAnalysis analysedAgent = Some ma /\
    Analysis.trend ma = meanChange (engineData refreshedFleet) /\
    Analysis.volatility ma = meanAbsChange (engineData refreshedFleet) /\
    Qabs (Analysis.trend ma) <= Analysis.volatility ma /\
    Analysis.sentiment ma =
      calculateMarketSentiment (Analysis.trend ma) (Analysis.volatility ma) /\
    Analysis.sentiment ma = sentimentOfTrend (Analysis.trend ma) /\
    Analysis.sentiment ma <> bull /\ Analysis.sentiment ma <> strong_bull /\
    dataManager analysedAgent = engineData refreshedFleet /\
    botModels analysedAgent = botModels (aiAgent refreshedFleet).
Proof.
  apply (monitor_is_never_bullish 2 (aiAgent refreshedFleet) analysedAgent).
  vm_compute. reflexivity.
Defined.






(** X9: after the agent has analysed a snapshot with at least one quote,
    its overall confidence is between 60 and 90, and so is the rounded
    value shown to the user: the bonus for low volatility and the bonus for
    a clear trend exclude each other, so 95 is never reached, and the
    clamp to [20, 95] never acts. *)
Theorem confidence_after_analysis (now : Time) (a a' : AIAgent) :
  Monitor.analyzeMarketConditions now a = Some a' ->
  60 <= overallConfidence a' <= 90 /\
  60 <= Monitor.getOverallConfidence a' <= 90.
Proof.
  intros H. apply analyze_Some in H as (Hlen & volume & ->).
  pose proof (means_ordered _ Hlen) as Hord.
  unfold Monitor.getOverallConfidence, Monitor.updateConfidence.
  cbn [overallConfidence withOverallConfidence marketAnalysis withMarketAnalysis
       Analysis.volatility Analysis.trend Analysis.volume].
  set (t := meanChange (dataManager a)) in *.
  set (v := meanAbsChange (dataManager a)) in *.
  compare_cases; try (exfalso; lra);
    repeat split; vm_compute; discriminate.
Qed.

Lemma confidence_after_analysis_witness :
  60 <= overallConfidence analysedAgent <= 90 /\
  60 <= Monitor.getOverallConfidence analysedAgent <= 90.
Proof.
  apply (confidence_after_analysis 2 (aiAgent refreshedFleet) analysedAgent).
  vm_compute. reflexivity.
Defined.

(** The number of checks of [assessPortfolioHealth] that fire. *)
Definition warnings (dm : DataManager) : nat :=
  (if Monitor.successRateLow dm then 1 else 0)
  + (if Monitor.drawdown dm then 1 else 0)
  + (if Monitor.detectHighCorrelation dm then 1 else 0).

Definition healthDecision (now : Time) (dm : DataManager) : Decision.t :=
  mkDecision portfolio_health
    ("Portfolio health: " +:+ pretty (Monitor.health dm).1 +:+ "/100. "
       +:+ (if Monitor.successRateLow dm then Monitor.lowSuccessRate
            else Monitor.manyInDrawdown))
    (Some 85) now.

(** X10: [assessPortfolioHealth] reports only when at least two of its
    three checks fire. A single warning, a low success rate included,
    leaves the score at 70 or more and nothing is written. When it reports
    it adds one [portfolio_health] decision that quotes the first warning
    and changes nothing else. *)
Theorem health_needs_two_warnings (now : Time) (a : AIAgent) :
  Monitor.assessPortfolioHealth now a =
  if (2 <=? warnings (dataManager a))%nat then
    withDataManager
      (saveData
         (withAiDecisions
            (unshiftCapped maxDecisions (healthDecision now (dataManager a))
               (aiDecisions (dataManager a)))
            (dataManager a)))
      a
  else a.
Proof.
  unfold Monitor.assessPortfolioHealth, healthDecision, warnings, Monitor.health,
    addAIDecision.
  destruct (Monitor.successRateLow (dataManager a)),
    (Monitor.drawdown (dataManager a)),
    (Monitor.detectHighCorrelation (dataManager a)); reflexivity.
Qed.

Example fresh_fleet_is_not_reported :
  warnings (engineData sampleFleet) = 1%nat /\
  Monitor.assessPortfolioHealth 9 (aiAgent sampleFleet) = aiAgent sampleFleet.
Proof. vm_compute. split; reflexivity. Qed.

Lemma ofNat_S n : Js.ofNat (S n) == Js.ofNat n + 1.
Proof.
  unfold Js.ofNat. rewrite Nat2Z.inj_succ. unfold Z.succ.
  by rewrite inject_Z_plus.
Qed.

Definition successes (l : list Trade.t) : nat := length (List.filter Trade.success l).

Lemma directions_sum (l : list Trade.t) (a : Q) :
  foldl (fun acc t => acc + (if Trade.success t then 1 else -1)) a l
  == a + 2 * Js.ofNat (successes l) - Js.ofNat (length l).
Proof.
  revert a. induction l as [|x l IH]; intros a.
  - unfold successes, Js.ofNat. simpl. ring.
  - cbn [foldl]. rewrite IH. unfold successes. cbn [List.filter length].
    destruct (Trade.success x); cbn [length]; rewrite !ofNat_S; ring.
Qed.

Lemma abs_above x y : y < Qabs x <-> y < x \/ x < - y.
Proof.
  split.
  - intros H. destruct (Qlt_le_dec y x) as [?|Hle]; [by left|].
    destruct (Qlt_le_dec x (- y)) as [?|Hge]; [by right|].
    exfalso. apply (Qlt_not_le _ _ H). by apply Qabs_Qle_condition.
  - intros H. apply Qnot_le_lt. intros Hle.
    apply Qabs_Qle_condition in Hle as [Hlo Hhi]. destruct H; lra.
Qed.

Lemma ratio_above s n y : 0 < n -> (y < s / n <-> y * n < s).
Proof.
  intros Hn. split.
  - intros H. apply (Qmult_lt_compat_r _ _ n) in H; [|done].
    assert (E : s / n * n == s) by (field; lra). by rewrite E in H.
  - intros H. by apply Qlt_shift_div_l.
Qed.

Lemma ratio_below s n y : 0 < n -> (s / n < y <-> s < y * n).
Proof.
  intros Hn. split.
  - intros H. apply (Qmult_lt_compat_r _ _ n) in H; [|done].
    assert (E : s / n * n == s) by (field; lra). by rewrite E in H.
  - intros H. by apply Qlt_shift_div_r.
Qed.

(** X11: [detectHighCorrelation] looks at the 50 most recent trades, or
    all of them when there are fewer. It is true exactly when there is at
    least one and more than 85% or fewer than 15% of them carry the
    success flag: a winning streak is flagged like a losing one. *)
Theorem correlation_is_a_streak (dm : DataManager) :
  let recent := Js.sliceTo 50 (tradingHistory dm) in
  let n := Js.ofNat (length recent) in
  let w := Js.ofNat (successes recent) in
  Monitor.detectHighCorrelation dm = true <->
  (0 < length recent)%nat /\ (0.85 * n < w \/ w < 0.15 * n).
Proof.
  cbv zeta. unfold Monitor.detectHighCorrelation.
  set (recent := Js.sliceTo 50 (tradingHistory dm)).
  destruct recent as [|x l] eqn:Hrec.
  - split; [done|]. intros [H _]. simpl in H. lia.
  - rewrite <- Hrec. rewrite gt_true.
    assert (Hlen : (0 < length recent)%nat) by (rewrite Hrec; simpl; lia).
    pose proof (ofNat_pos _ Hlen) as Hn.
    pose proof (directions_sum recent 0) as Hsum.
    unfold Js.sum.
    set (n := Js.ofNat (length recent)) in *.
    set (w := Js.ofNat (successes recent)) in *.
    set (s := foldl _ 0 recent) in *.
    rewrite abs_above, ratio_above, ratio_below by done.
    split.
    + intros H. split; [done|]. destruct H; [left|right]; lra.
    + intros [_ H]. destruct H; [left|right]; lra.
Qed.

(** ** Trade decisions and profits *)

Lemma round_above c : 50 < c -> 50 <= Js.round c.
Proof.
  intros H. unfold Js.round.
  assert (Hz : (50 <= Qfloor (c + 0.5))%Z).
  { change 50%Z with (Qfloor 50). apply Qfloor_resp_le. lra. }
  rewrite Zle_Qle in Hz. exact Hz.
Qed.

(** Every decision has the shape the last statement of
    [generateTradeDecision] gives it. *)
Lemma decision_shape bot mc e s d s' :
  generateTradeDecision bot mc e s = (Value d, s') ->
  exists (wanted : bool) (c : Q),
    TradeDecision.execute d = wanted && Js.gt c 50 /\
    TradeDecision.confidence d = Js.round c /\
    (Bot.type bot = ai_adaptive -> c = getConfidence (Bot.id bot) (aiAgent e)).
Proof.
  unfold generateTradeDecision, bindR, coin, ret, Math_random, getRandomSymbol.
  destruct (Bot.type bot); cbn [bindR];
    try (intros [= <- _]; do 2 eexists; repeat split; done).
  destruct (shouldTrade (Bot.id bot) mc (aiAgent e) s) as [[x|err] s1]; [|done].
  intros [= <- _]. do 2 eexists. repeat split; done.
Qed.

Lemma executed_confidence bot mc e s d s' :
  generateTradeDecision bot mc e s = (Value d, s') ->
  TradeDecision.execute d = true ->
  50 <= TradeDecision.confidence d.
Proof.
  intros H Hx. destruct (decision_shape _ _ _ _ _ _ H) as (wanted & c & He & Hc & _).
  rewrite He in Hx. apply andb_true_iff in Hx as [_ Hx]. apply gt_true in Hx.
  rewrite Hc. by apply round_above.
Qed.

(** Rounding to cents keeps the order. *)
Definition cents (x : Q) : Q := inject_Z (Qfloor (Qabs x * 100 + 0.5)) / 100.

Lemma cents_nonneg x : 0 <= cents x.
Proof.
  unfold cents. apply Qle_shift_div_l; [reflexivity|].
  assert (Hz : (0 <= Qfloor (Qabs x * 100 + 0.5))%Z).
  { change 0%Z with (Qfloor 0). apply Qfloor_resp_le.
    pose proof (Qabs_nonneg x). lra. }
  rewrite Zle_Qle in Hz. change (inject_Z 0) with 0 in Hz. lra.
Qed.

Lemma cents_mono x y : Qabs x <= Qabs y -> cents x <= cents y.
Proof.
  intros H. unfold cents, Qdiv. apply Qmult_le_compat_r; [|discriminate].
  rewrite <- Zle_Qle. apply Qfloor_resp_le. lra.
Qed.

Lemma toFixed2_mono x y : x <= y -> Js.toFixed 2 x <= Js.toFixed 2 y.
Proof.
  intros H. unfold Js.toFixed. change (inject_Z (Js.pow10 2)) with 100.
  fold (cents x). fold (cents y).
  pose proof (cents_nonneg x). pose proof (cents_nonneg y).
  destruct (Js.lt x 0) eqn:Hx; [apply lt_true in Hx|apply lt_false in Hx];
    (destruct (Js.lt y 0) eqn:Hy; [apply lt_true in Hy|apply lt_false in Hy]).
  - assert (cents y <= cents x); [|lra].
    apply cents_mono. rewrite !Qabs_neg by lra. lra.
  - lra.
  - lra.
  - apply cents_mono. rewrite !Qabs_pos by lra. done.
Qed.

Lemma product_above (a b c la lb lc : Q) :
  0 <= la -> 0 <= lb -> 0 <= lc -> la <= a -> lb <= b -> lc <= c ->
  la * lb * lc <= a * b * c.
Proof.
  intros. apply Qmult_le_compat_nonneg; [split|split]; try done.
  - apply Qmult_le_0_compat; done.
  - apply Qmult_le_compat_nonneg; split; done.
Qed.

(** X12: an executed trade is made at a rounded confidence of at least
    50, and, the sample read for the market multiplier being non-negative,
    its profit is at least -0.25 for a bot whose risk level is at most 0.9
    and at least 0.25 for a bot whose risk level is at most 0.7: such a
    bot, and every bot of the default fleet is one, never records a loss. *)
Theorem executed_profit_bounds (bot : Bot.t) (mc : Conditions.t) (e : TradingEngine)
  (s s2 s3 : nat -> Q) (d : TradeDecision.t) (profit : Q) :
  generateTradeDecision bot mc e s = (Value d, s2) ->
  TradeDecision.execute d = true ->
  calculateTradeProfit bot d s2 = (profit, s3) ->
  0 <= s2 0%nat ->
  50 <= TradeDecision.confidence d /\
  (Bot.riskLevel bot <= 0.9 -> -0.25 <= profit) /\
  (Bot.riskLevel bot <= 0.7 -> 0.25 <= profit /\ Js.gt profit 0 = true).
Proof.
  intros Hd Hx Hp Hu.
  pose proof (executed_confidence _ _ _ _ _ _ Hd Hx) as Hc.
  split; [done|].
  unfold calculateTradeProfit, bindR, Math_random, ret in Hp.
  injection Hp as <- _.
  set (u := s2 0%nat) in *. set (c := TradeDecision.confidence d) in *.
  set (r := Bot.riskLevel bot).
  assert (Hbound : forall k, 0 <= k -> k <= 1 - r ->
            5 * k * 0.5 - 0.5 <= c / 10 * (1 - r) * (1 + (u - 0.5)) - 0.5).
  { intros k Hk Hr.
    assert (5 * k * 0.5 <= c / 10 * (1 - r) * (1 + (u - 0.5))); [|lra].
    apply product_above; try lra.
    assert (E : c / 10 == c * 0.1) by (unfold Qdiv; reflexivity). rewrite E. lra. }
  split.
  - intros Hr. eapply Qle_trans; [|apply toFixed2_mono, (Hbound 0.1); lra].
    vm_compute. discriminate.
  - intros Hr.
    assert (Hwin : 0.25 <= Js.toFixed 2 (c / 10 * (1 - r) * (1 + (u - 0.5)) - 0.5)).
    { eapply Qle_trans; [|apply toFixed2_mono, (Hbound 0.3); lra].
      vm_compute. discriminate. }
    split; [done|]. apply gt_true. lra.
Qed.

Lemma executed_profit_bounds_witness :
  50 <= TradeDecision.confidence alphaDecision /\
  (Bot.riskLevel alpha <= 0.9 -> -0.25 <= alphaProfit) /\
  (Bot.riskLevel alpha <= 0.7 -> 0.25 <= alphaProfit /\ Js.gt alphaProfit 0 = true).
Proof.
  apply (executed_profit_bounds alpha (analyzeMarketConditions steady).1 sampleFleet
           (analyzeMarketConditions steady).2 steady steady alphaDecision alphaProfit).
  - reflexivity.
  - reflexivity.
  - reflexivity.
  - vm_compute. discriminate.
Defined.

Lemma clamp_le (lo hi x y : Q) : lo <= y -> x <= y -> Qmax lo (Qmin hi x) <= y.
Proof.
  intros Hlo Hx. apply Q.max_lub; [done|].
  eapply Qle_trans; [apply Q.le_min_r|done].
Qed.

(** The confidence of a bot that has no trade in the log. *)
Lemma getConfidence_no_history (a : AIAgent) (i : nat) (bot : Bot.t) :
  NoDup (ids (bots (dataManager a))) ->
  bots (dataManager a) !! i = Some bot ->
  tradesOf (Bot.id bot) (tradingHistory (dataManager a)) = [] ->
  overallConfidence a <= 95 ->
  0 <= Bot.riskLevel bot <= 0.7 ->
  getConfidence (Bot.id bot) a <= 50.
Proof.
  intros Hnd Hi Hno Hoc [Hr0 Hr1]. unfold getConfidence.
  rewrite (findBot_unique _ _ _ Hnd Hi).
  destruct (botModels a !! Bot.id bot) as [model|]; [|apply Qle_refl].
  unfold getBotPerformance. rewrite Hno.
  cbn [length Nat.ltb Nat.leb perfSuccessRate totalProfit profitable].
  change (Js.sum Trade.profit (filter _ [])) with 0.
  change (Js.sum Trade.profit []) with 0.
  set (oc := overallConfidence a) in *. set (r := Bot.riskLevel bot) in *.
  apply clamp_le; [discriminate|].
  assert (Ebase : oc + (0 - 50) / 2 + Qmin 20 (0 / 10) == oc - 25).
  { assert (E : Qmin 20 (0 / 10) == 0) by (vm_compute; reflexivity).
    rewrite E. field. }
  rewrite Ebase.
  destruct (Qlt_le_dec (oc - 25) 0) as [Hneg|Hpos].
  - assert ((oc - 25) * r <= 0); [|lra].
    assert (E : (oc - 25) * r == - ((25 - oc) * r)) by ring.
    rewrite E.
    assert (0 <= (25 - oc) * r); [|lra].
    apply Qmult_le_0_compat; lra.
  - assert ((oc - 25) * r <= 70 * 0.7); [|lra].
    apply Qmult_le_compat_nonneg; split; lra.
Qed.

(** X13: an [ai_adaptive] bot that has no trade in the log and a risk
    level of at most 0.7 never trades, whatever the market conditions and
    the random samples: its confidence is at most 50, which the final gate
    of the decision refuses. The default fleet's adaptive bot is in that
    state, and only its own trades could take it out of it. Fleet ids are
    distinct and the overall confidence is at most 95, as every analysis
    leaves it. *)
Theorem adaptive_bot_never_starts (now : Time) (e : TradingEngine) (i : nat)
  (bot : Bot.t) (s : nat -> Q) :
  NoDup (ids (bots (engineData e))) ->
  bots (engineData e) !! i = Some bot ->
  Bot.type bot = ai_adaptive ->
  tradesOf (Bot.id bot) (tradingHistory (engineData e)) = [] ->
  overallConfidence (aiAgent e) <= 95 ->
  0 <= Bot.riskLevel bot <= 0.7 ->
  exists s', executeBotTrade now bot e s = (Js.Normal e, s').
Proof.
  intros Hnd Hi Hty Hno Hoc Hr.
  pose proof (getConfidence_no_history (aiAgent e) i bot Hnd Hi Hno Hoc Hr) as Hc.
  unfold executeBotTrade, bindR.
  destruct (analyzeMarketConditions s) as [mc s1].
  destruct (generateTradeDecision bot mc e s1) as [[d|err] s2] eqn:Hd.
  - destruct (decision_shape _ _ _ _ _ _ Hd) as (wanted & c & Hx & _ & Hai).
    rewrite (Hai Hty) in Hx.
    assert (Hgate : Js.gt (getConfidence (Bot.id bot) (aiAgent e)) 50 = false)
      by (by apply gt_false).
    rewrite Hgate, andb_false_r in Hx. rewrite Hx. by eexists.
  - exfalso. revert Hd.
    unfold generateTradeDecision, bindR, shouldTrade. rewrite Hty.
    fold (engineData e). rewrite (findBot_unique _ _ _ Hnd Hi).
    destruct (botModels (aiAgent e) !! Bot.id bot); [|done].
    destruct (Js.gt _ 45); done.
Qed.

Lemma adaptive_bot_never_starts_witness :
  exists s',
    executeBotTrade 9
      (Bot.mk 5 "Epsilon AI" ai_adaptive active "Neural Network Adaptive" 0 0 0 0.7 0)
      sampleFleet steady
    = (Js.Normal sampleFleet, s').
Proof.
  apply (adaptive_bot_never_starts 9 sampleFleet 4
           (Bot.mk 5 "Epsilon AI" ai_adaptive active "Neural Network Adaptive"
              0 0 0 0.7 0) steady).
  - distinct_ids.
  - reflexivity.
  - reflexivity.
  - reflexivity.
  - vm_compute. discriminate.
  - split; vm_compute; discriminate.
Defined.

(** ** A trading cycle leaves inactive bots alone *)

(** The bot at index [j] is [b], in a fleet with distinct ids. *)
Definition holds (j : nat) (b : Bot.t) (dm : DataManager) : Prop :=
  NoDup (ids (bots dm)) /\ bots dm !! j = Some b.

Lemma ids_insert bs i b b' :
  bs !! i = Some b -> Bot.id b' = Bot.id b -> ids (<[i := b']> bs) = ids bs.
Proof.
  intros Hi Hid. unfold ids. rewrite list_fmap_insert. apply list_insert_id.
  by rewrite list_lookup_fmap, Hi, Hid.
Qed.

Lemma holds_forEach u j b dm :
  isActive b = false -> holds j b dm ->
  holds j b (forEachBot (updateWhen isActive u) dm).
Proof.
  intros Hb [Hnd Hj]. unfold holds.
  destruct (forEachBot_updateWhen isActive u dm Hnd) as (-> & _). split.
  - by rewrite ids_updated.
  - rewrite list_lookup_fmap, Hj. simpl. unfold updated. by rewrite Hb.
Qed.

Lemma holds_strategic now a j b :
  isActive b = false -> holds j b (dataManager a) ->
  holds j b (dataManager (Js.state (makeStrategicDecisions now a))).
Proof.
  intros Hb H. unfold makeStrategicDecisions.
  assert (Hrest : forall a1,
             holds j b (dataManager a1) ->
             holds j b (dataManager (Js.state
                    (match marketAnalysis a with
                     | Some ma =>
                         if Js.gt (Analysis.volatility ma) 0.08
                         then Js.Normal (adjustRiskParameters (-0.1) a1)
                         else if Js.lt (Analysis.volatility ma) 0.03
                         then Js.Normal (adjustRiskParameters 0.05 a1)
                         else Js.Normal a1
                     | None => Js.Normal a1
                     end)))).
  { intros a1 H1. destruct (marketAnalysis a) as [ma|]; [|done].
    destruct (Js.gt _ _); [by apply holds_forEach|].
    destruct (Js.lt _ _); [by apply holds_forEach|done]. }
  assert (Hlog : forall c msg conf dm,
             holds j b dm -> holds j b (addAIDecision now c msg conf dm)) by done.
  destruct (marketAnalysis a) as [ma|] eqn:Hma.
  - destruct (Analysis.sentiment ma); simpl; try done; apply Hrest; simpl;
      apply Hlog; try done; by apply holds_forEach.
  - simpl. by apply Hlog.
Qed.

Lemma recordTrade_fleet now bot decision profit e i :
  NoDup (ids (bots (engineData e))) ->
  bots (engineData e) !! i = Some bot ->
  exists u,
    bots (engineData (recordTrade now bot decision profit e))
    = <[i := Bot.assign bot u]> (bots (engineData e)).
Proof.
  intros Hnd Hi. unfold recordTrade, engineData in *. cbn [aiAgent withAgent].
  rewrite learnFromTrade_dataManager. simpl.
  rewrite (updateBot_found _ _ _ i bot) by (by apply findBot_unique).
  by eexists.
Qed.

Lemma holds_executeBotTrade now bot e s i j b :
  bots (engineData e) !! i = Some bot -> j <> i ->
  holds j b (engineData e) ->
  holds j b (engineData (Js.state (executeBotTrade now bot e s).1)).
Proof.
  intros Hi Hne [Hnd Hj]. unfold executeBotTrade, bindR.
  destruct (analyzeMarketConditions s) as [mc s1].
  destruct (generateTradeDecision bot mc e s1) as [[d|err] s2]; [|done].
  destruct (TradeDecision.execute d); [|done].
  destruct (calculateTradeProfit bot d s2) as [profit s3].
  unfold ret, holds. cbn [fst Js.state].
  destruct (recordTrade_fleet now bot d profit e i Hnd Hi) as [u ->]. split.
  - by rewrite (ids_insert _ _ bot).
  - by rewrite list_lookup_insert_ne.
Qed.

Lemma holds_tradeEach now indices e s j b :
  j ∉ indices -> holds j b (engineData e) ->
  holds j b (engineData (Js.state (tradeEach now indices e s).1)).
Proof.
  revert e s. induction indices as [|i rest IH]; intros e s Hj H; simpl; [done|].
  apply not_elem_of_cons in Hj as [Hne Hrest].
  destruct (bots (engineData e) !! i) as [bot|] eqn:Hi; [|by apply IH].
  unfold bindR.
  pose proof (holds_executeBotTrade now bot e s i j b Hi Hne H) as Hstep.
  destruct (executeBotTrade now bot e s) as [[e1|err e1] s1]; simpl in *;
    [by apply IH | done].
Qed.

Lemma inactive_not_listed bs j b :
  bs !! j = Some b -> isActive b = false -> j ∉ activeIndices bs.
Proof.
  intros Hj Hb Hin. unfold activeIndices in Hin.
  apply list_elem_of_In, filter_In in Hin as [_ Hact].
  rewrite Hj in Hact. congruence.
Qed.

(** X14: in a fleet with distinct ids, a trading cycle changes no field of
    a bot that is inactive when the cycle starts: it is not traded, no
    trade of another bot is booked on it, and the strategic step that ends
    the cycle passes it over; that holds for the state a raising cycle
    leaves, too. *)
Theorem cycle_spares_inactive (now : Time) (e : TradingEngine) (s : nat -> Q)
  (j : nat) (b : Bot.t) :
  NoDup (ids (bots (engineData e))) ->
  bots (engineData e) !! j = Some b ->
  Bot.status b = inactive ->
  bots (engineData (Js.state (executeTradingCycle now e s).1)) !! j = Some b.
Proof.
  intros Hnd Hj Hst.
  assert (Hb : isActive b = false) by (unfold isActive; by rewrite Hst).
  pose proof (inactive_not_listed _ _ _ Hj Hb) as Hout.
  unfold executeTradingCycle, bindR.
  pose proof (holds_tradeEach now _ e s j b Hout (conj Hnd Hj)) as Ht.
  destruct (tradeEach now _ e s) as [[e1|err e1] s1]; simpl in *; [|apply Ht].
  pose proof (holds_strategic now (aiAgent e1) j b Hb Ht) as [_ Hs].
  by destruct (makeStrategicDecisions now (aiAgent e1)).
Qed.

(** The sample fleet with its second bot stopped by the user. *)
Definition pausedFleet : TradingEngine := fst (toggleBot 1 2 sampleFleet).

Lemma cycle_spares_inactive_witness :
  bots (engineData (Js.state (executeTradingCycle 9 pausedFleet steady).1)) !! 1%nat
  = Some (Bot.mk 2 "Beta Momentum" momentum inactive "Trend Following" 0 0 0 0.5 0).
Proof.
  apply (cycle_spares_inactive 9 pausedFleet steady 1
           (Bot.mk 2 "Beta Momentum" momentum inactive "Trend Following" 0 0 0 0.5 0)).
  - distinct_ids.
  - reflexivity.
  - reflexivity.
Defined.

(** ** The market refresh *)

Lemma quoteEach_keys now symbols s :
  (quoteEach now symbols s).1.*1 = symbols /\
  Forall (fun kv => Quote.symbol kv.2 = kv.1) (quoteEach now symbols s).1.
Proof.
  revert s. induction symbols as [|symbol rest IH]; intros s; [done|].
  destruct (quoteOf now symbol s) as [q s1] eqn:Hq.
  destruct (quoteEach now rest s1) as [qs s2] eqn:Hqs.
  assert (E : quoteEach now (symbol :: rest) s = ((symbol, q) :: qs, s2)).
  { cbn [quoteEach]. unfold bindR. by rewrite Hq, Hqs. }
  pose proof (IH s1) as [Hkeys Hsym]. rewrite Hqs in Hkeys, Hsym.
  rewrite E. cbn [fst] in *. split.
  - rewrite fmap_cons. cbn [fst]. by rewrite Hkeys.
  - constructor; [|done]. cbn [fst snd].
    unfold quoteOf, bindR, Math_random, ret in Hq. by injection Hq as <- _.
Qed.

Lemma floor_index (u : Q) (n : nat) :
  0 <= u -> u < 1 -> (0 < n)%nat ->
  (0 <= Qfloor (u * Js.ofNat n))%Z /\ (Z.to_nat (Qfloor (u * Js.ofNat n)) < n)%nat.
Proof.
  intros H0 H1 Hn. pose proof (ofNat_pos n Hn) as Hpos.
  assert (Hlo : 0 <= u * Js.ofNat n) by (apply Qmult_le_0_compat; lra).
  assert (Hhi : u * Js.ofNat n < Js.ofNat n).
  { assert (E : Js.ofNat n == 1 * Js.ofNat n) by ring.
    rewrite E at 2. by apply Qmult_lt_compat_r. }
  assert (Hz0 : (0 <= Qfloor (u * Js.ofNat n))%Z).
  { change 0%Z with (Qfloor 0). by apply Qfloor_resp_le. }
  split; [done|].
  assert (Hz1 : (Qfloor (u * Js.ofNat n) < Z.of_nat n)%Z).
  { rewrite Zlt_Qlt. eapply Qle_lt_trans; [apply Qfloor_le|exact Hhi]. }
  lia.
Qed.

(** X15: a market refresh replaces the snapshot, whatever it held, by one
    quote for each of the five tracked symbols, in their fixed order and
    each under its own symbol; it saves the store and touches neither the
    fleet nor the logs. From then on the symbol chosen for a trade is one
    of the five, for every sample in [0, 1). *)
Theorem refresh_tracks_five_symbols (now : Time) (e : TradingEngine) (s : nat -> Q) :
  let e' := (updateMarketData now e s).1 in
  (marketData (engineData e')).*1 = trackedSymbols /\
  Forall (fun kv => Quote.symbol kv.2 = kv.1) (marketData (engineData e')) /\
  persisted (engineData e') /\
  bots (engineData e') = bots (engineData e) /\
  tradingHistory (engineData e') = tradingHistory (engineData e) /\
  aiDecisions (engineData e') = aiDecisions (engineData e) /\
  (forall s' : nat -> Q,
     0 <= s' 0%nat -> s' 0%nat < 1 -> (getRandomSymbol e' s').1 ∈ trackedSymbols).
Proof.
  intros e'. subst e'. unfold updateMarketData, bindR.
  pose proof (quoteEach_keys now trackedSymbols s) as [Hkeys Hsym].
  destruct (quoteEach now trackedSymbols s) as [md s1]. simpl in Hkeys, Hsym.
  unfold ret. cbn [fst]. repeat split; try done.
  intros s' H0 H1. unfold getRandomSymbol, bindR, Math_random, ret.
  cbn [fst engineData withEngineData withAgent aiAgent dataManager withDataManager
       saveData withMarketData marketData].
  rewrite Hkeys.
  destruct (floor_index (s' 0%nat) (length trackedSymbols) H0 H1 ltac:(simpl; lia))
    as [Hlo Hhi].
  destruct (Z.ltb_spec (Qfloor (s' 0%nat * Js.ofNat (length trackedSymbols))) 0); [lia|].
  destruct (lookup_lt_is_Some_2 trackedSymbols _ Hhi) as [sym Hsome].
  rewrite Hsome.
  assert (Hin : sym ∈ trackedSymbols) by (apply list_elem_of_lookup; eauto).
  case_bool_decide as Hempty; [|done].
  subst sym. exfalso. revert Hin. unfold trackedSymbols.
  rewrite !elem_of_cons, elem_of_nil. intros [?|[?|[?|[?|[?|[]]]]]]; discriminate.
Qed.

Example symbol_before_first_refresh :
  forall s : nat -> Q, (getRandomSymbol sampleFleet s).1 = "BTC/USD".
Proof.
  intros s. unfold getRandomSymbol, bindR, Math_random, ret. cbn.
  by destruct (_ <? 0)%Z.
Qed.

(** ** Import and export *)




Example import_accepts_any_truthy_values :
  i_bots
    (appData
       (importData
          (Value (Json.object [("bots", Json.number 5); ("tradingHistory", Json.str "x");
                               ("aiDecisions", Json.bool true)]))
          sampleApp))
  = Json.number 5.
Proof. reflexivity. Qed.

Example import_rejects_falsy_key :
  importData
    (Value (Json.object [("bots", Json.array []); ("tradingHistory", Json.number 0);
                         ("aiDecisions", Json.array [])]))
    sampleApp
  = alert "Invalid data format." sampleApp.
Proof. reflexivity. Qed.



(** ** The models the agent starts with *)

Lemma initial_models (bs : list Bot.t) (m : gmap Z BotModel) (botId : Z) :
  foldl (fun m bot => <[Bot.id bot := freshModel]> m) m bs !! botId
  = if decide (botId ∈ ids bs) then Some freshModel else m !! botId.
Proof.
  revert m. induction bs as [|b bs IH]; intros m.
  - cbn [foldl]. rewrite decide_False; [done|]. apply not_elem_of_nil.
  - cbn [foldl]. rewrite IH. unfold ids. rewrite fmap_cons.
    destruct (decide (botId ∈ Bot.id <$> bs)) as [Hin|Hout].
    + rewrite decide_True by (apply elem_of_cons; by right). done.
    + destruct (decide (botId = Bot.id b)) as [->|Hne].
      * rewrite decide_True by (apply elem_of_cons; by left).
        apply lookup_insert_eq.
      * rewrite decide_False by (rewrite elem_of_cons; tauto).
        apply lookup_insert_ne. congruence.
Qed.

(** X18: a new agent holds a fresh learning model, with an empty history
    and zero metrics, for exactly the ids of the fleet it is given, and
    starts at an overall confidence of 75 with no analysis. *)
Theorem new_agent_models_the_fleet (dm : DataManager) (botId : Z) :
  botModels (newAIAgent dm) !! botId
    = (if decide (botId ∈ ids (bots dm)) then Some freshModel else None) /\
  dataManager (newAIAgent dm) = dm /\
  overallConfidence (newAIAgent dm) = 75 /\
  marketAnalysis (newAIAgent dm) = None.
Proof.
  unfold newAIAgent, initializeBotModels. cbn. rewrite initial_models.
  by rewrite lookup_empty.
Qed.

(** ** Rates are percentages *)

Lemma ofNat_le m n : (m <= n)%nat -> Js.ofNat m <= Js.ofNat n.
Proof. intros H. unfold Js.ofNat. rewrite <- Zle_Qle. lia. Qed.

Lemma percentage (w t : nat) :
  (w <= t)%nat -> (0 < t)%nat -> 0 <= Js.ofNat w / Js.ofNat t * 100 <= 100.
Proof.
  intros Hle Hpos. pose proof (ofNat_pos t Hpos) as Ht.
  pose proof (ofNat_nonneg w) as Hw. pose proof (ofNat_le w t Hle) as Hwt.
  assert (H0 : 0 <= Js.ofNat w / Js.ofNat t).
  { apply Qle_shift_div_l; [done|]. lra. }
  assert (H1 : Js.ofNat w / Js.ofNat t <= 1).
  { apply Qle_shift_div_r; [done|]. lra. }
  lra.
Qed.

(** X19: the success rate of a bot and the overall success rate are
    between 0 and 100, and are 0 when there is no trade to count; the
    profitable trades counted are at most the trades, and the active bots
    at most the bots. *)
Theorem success_rates_are_percentages (botId : Z) (dm : DataManager) :
  let p := getBotPerformance botId dm in
  let o := getOverallStats dm in
  (profitableTrades p <= totalTrades p)%nat /\
  0 <= perfSuccessRate p <= 100 /\
  (totalTrades p = 0%nat -> perfSuccessRate p = 0) /\
  0 <= Stats.successRate o <= 100 /\
  (tradingHistory dm = [] -> Stats.successRate o = 0) /\
  (Stats.activeBots o <= Stats.totalBots o)%nat.
Proof.
  cbv zeta. unfold getBotPerformance, getOverallStats.
  cbn [profitableTrades totalTrades perfSuccessRate Stats.successRate Stats.activeBots
       Stats.totalBots].
  set (mine := tradesOf botId (tradingHistory dm)).
  pose proof (length_filter (fun t => Js.gt (Trade.profit t) 0 = true) mine) as Hmine.
  pose proof (length_filter (fun t => Js.gt (Trade.profit t) 0 = true)
                (tradingHistory dm)) as Hall.
  fold (profitable mine) in Hmine. fold (profitable (tradingHistory dm)) in Hall.
  split; [done|]. split; [|split; [|split; [|split]]].
  - destruct (Nat.ltb_spec 0 (length mine)); [by apply percentage|].
    split; apply Qle_refl || discriminate.
  - by intros ->.
  - destruct (Nat.ltb_spec 0 (length (tradingHistory dm))); [by apply percentage|].
    split; apply Qle_refl || discriminate.
  - by intros ->.
  - apply filter_length_le.
Qed.

(** ** The learning history is bounded *)

Lemma learn_history_after now botId decision profit a model :
  botModels a !! botId = Some model ->
  exists model',
    botModels (learnFromTrade now botId decision profit a) !! botId = Some model' /\
    tradeHistory model' = learnedHistory now decision profit model.
Proof.
  intros Hm. unfold learnFromTrade. rewrite Hm.
  fold (learnedHistory now decision profit model).
  unfold updateBotModel. cbn [botModels withBotModels].
  rewrite lookup_insert_eq. cbn [tradeHistory withTradeHistory].
  destruct (_ <? _)%nat; eexists;
    (split; [cbn [botModels withBotModels]; apply lookup_insert_eq | done]).
Qed.



(** X20: after [learnFromTrade] on a bot that has a model, the history of
    that model has at most 100 entries, however many it had, and its last
    entry is the outcome just learned; no other model and nothing of the
    store changes. *)
Theorem learning_history_is_bounded (now : Time) (botId : Z)
  (decision : TradeDecision.t) (profit : Q) (a : AIAgent) (model : BotModel) :
  botModels a !! botId = Some model ->
  let a' := learnFromTrade now botId decision profit a in
  (exists model',
     botModels a' !! botId = Some model' /\
     (length (tradeHistory model') <= historyCap)%nat /\
     last (tradeHistory model') = Some (Outcome.mk decision profit now)) /\
  (forall other, other <> botId -> botModels a' !! other = botModels a !! other) /\
  dataManager a' = dataManager a.
Proof.
  intros Hm a'. subst a'. split; [|split].
  - destruct (learn_history_after now botId decision profit a model Hm)
      as (model' & Hm' & Hh).
    exists model'. split; [done|]. rewrite Hh.
    unfold learnedHistory, Js.sliceLast.
    rewrite length_app. cbn [length].
    destruct (Nat.ltb_spec historyCap (length (tradeHistory model) + 1)) as [Hlong|Hshort].
    + split; [rewrite length_drop, length_app; cbn [length]; unfold historyCap in *; lia|].
      rewrite drop_app_le by (unfold historyCap in *; lia). apply last_snoc.
    + split; [rewrite length_app; cbn [length]; lia | apply last_snoc].
  - intros other Hne. unfold learnFromTrade. rewrite Hm.
    unfold updateBotModel. cbn [botModels withBotModels].
    rewrite lookup_insert_eq.
    destruct (_ <? _)%nat; cbn [botModels withBotModels];
      by rewrite ?lookup_insert_ne.
  - apply learnFromTrade_dataManager.
Qed.

Lemma learning_history_is_bounded_witness :
  let a' := learnFromTrade 9 3 sampleDecision 5 (aiAgent sampleFleet) in
  (exists model',
     botModels a' !! 3%Z = Some model' /\
     (length (tradeHistory model') <= historyCap)%nat /\
     last (tradeHistory model') = Some (Outcome.mk sampleDecision 5 9)) /\
  (forall other, other <> 3%Z ->
     botModels a' !! other = botModels (aiAgent sampleFleet) !! other) /\
  dataManager a' = dataManager (aiAgent sampleFleet).
Proof.
  apply (learning_history_is_bounded 9 3 sampleDecision 5 (aiAgent sampleFleet)
           freshModel).
  reflexivity.
Defined.

(** ** What the commands do to the agent *)

Section AgentInvariant.

(** A property of the agent that does not depend on its store or on its
    timer, and that learning, optimising and observing keep, is kept by
    every command. *)
Variable Inv : AIAgent -> Prop.
Hypothesis Inv_store : forall dm a, Inv a -> Inv (withDataManager dm a).
Hypothesis Inv_timer : forall i a, Inv a -> Inv (withMonitoringInterval i a).
Hypothesis Inv_learn :
  forall now botId decision profit a,
    Inv a -> Inv (learnFromTrade now botId decision profit a).
Hypothesis Inv_optimizeBot :
  forall now botId a, Inv a -> Inv (fst (optimizeBot now botId a)).
Hypothesis Inv_observe :
  forall ma a, Inv a -> Inv (Monitor.updateConfidence (withMarketAnalysis ma a)).

Lemma InvA_strategic now a :
  Inv a -> Inv (Js.state (makeStrategicDecisions now a)).
Proof.
  intros H. unfold makeStrategicDecisions.
  destruct (marketAnalysis a) as [ma|].
  - destruct (Analysis.sentiment ma); cbn [Js.bind Js.state]; try done;
      repeat match goal with
             | |- context [if ?c then _ else _] => destruct c
             end; cbn [Js.state];
      unfold adjustRiskParameters, activateAggressiveStrategies,
        activateDefensiveStrategies, activateBalancedStrategies;
      auto using Inv_store.
  - cbn. unfold activateBalancedStrategies. by apply Inv_store.
Qed.

Lemma InvA_executeBotTrade now bot e s :
  Inv (aiAgent e) -> Inv (aiAgent (Js.state (executeBotTrade now bot e s).1)).
Proof.
  intros H. unfold executeBotTrade, bindR.
  destruct (analyzeMarketConditions s) as [mc s1].
  destruct (generateTradeDecision bot mc e s1) as [[d|err] s2]; [|done].
  destruct (TradeDecision.execute d); [|done].
  destruct (calculateTradeProfit bot d s2) as [profit s3].
  unfold ret, recordTrade. cbn [fst Js.state aiAgent withAgent withEngineData].
  by apply Inv_learn, Inv_store.
Qed.

Lemma InvA_tradeEach now indices e s :
  Inv (aiAgent e) -> Inv (aiAgent (Js.state (tradeEach now indices e s).1)).
Proof.
  revert e s. induction indices as [|i rest IH]; intros e s H; simpl; [done|].
  destruct (bots (engineData e) !! i) as [bot|]; [|by apply IH].
  unfold bindR. pose proof (InvA_executeBotTrade now bot e s H) as Hstep.
  destruct (executeBotTrade now bot e s) as [[e1|err e1] s1]; simpl in *;
    [by apply IH | done].
Qed.

Lemma InvA_perform now c e :
  Inv (aiAgent e) -> Inv (aiAgent (perform now c e)).
Proof.
  intros H. destruct c; cbn [perform].
  - unfold startAllBots. destruct (isRunning e); [done|].
    unfold startMonitoring, startTradingCycle.
    cbn [aiAgent withAgent withEngineData withTradingInterval withRunning].
    by apply Inv_store, Inv_timer, Inv_store.
  - unfold stopAllBots, stopMonitoring.
    destruct e as [a running [timer|] refresh];
      cbn [aiAgent withAgent withEngineData withTradingInterval withRunning
           tradingInterval monitoringInterval withDataManager] in *;
      destruct (monitoringInterval a); by auto using Inv_store, Inv_timer.
  - unfold toggleBot.
    destruct (findBot botId (bots (engineData e))) as [[j b]|]; [|done].
    cbn. by apply Inv_store.
  - unfold engineOptimizeBot.
    pose proof (Inv_optimizeBot now botId (aiAgent e) H) as Ho.
    destruct (optimizeBot now botId (aiAgent e)) as [a1 o]. cbn in *.
    by apply Inv_store.
  - unfold executeTradingCycle, bindR.
    pose proof (InvA_tradeEach now (activeIndices (bots (engineData e))) e random H)
      as Ht.
    destruct (tradeEach now _ e random) as [[e1|err e1] s1]; cbn in *; [|done].
    pose proof (InvA_strategic now (aiAgent e1) Ht) as Hs.
    by destruct (makeStrategicDecisions now (aiAgent e1)).
  - unfold updateMarketData, bindR.
    destruct (quoteEach now trackedSymbols random) as [md s1]. cbn.
    by apply Inv_store.
  - cbn. by apply Inv_observe.
  - cbn. unfold Monitor.assessPortfolioHealth.
    destruct (Monitor.health (dataManager (aiAgent e))) as [score [|first recs]];
      [done|].
    destruct (score <? 70)%Z; [|done]. by apply Inv_store.
  - pose proof (InvA_strategic now (aiAgent e) H) as Hs.
    by destruct (makeStrategicDecisions now (aiAgent e)).
Qed.

Lemma InvA_performAll cs e : Inv (aiAgent e) -> Inv (aiAgent (performAll cs e)).
Proof.
  revert e. induction cs as [|[now c] cs IH]; intros e H; simpl; [done|].
  by apply IH, InvA_perform.
Qed.

End AgentInvariant.

Lemma models_kept (k : Z) (cs : list (Time * Command)) (e : TradingEngine) :
  is_Some (botModels (aiAgent e) !! k) ->
  is_Some (botModels (aiAgent (performAll cs e)) !! k).
Proof.
  apply (InvA_performAll (fun a => is_Some (botModels a !! k))); try done.
  - intros now botId decision profit a H. unfold learnFromTrade.
    destruct (botModels a !! botId) as [model|]; [|done].
    unfold updateBotModel. cbn [botModels withBotModels]. rewrite lookup_insert_eq.
    destruct (_ <? _)%nat; cbn [botModels withBotModels];
      rewrite ?lookup_insert_is_Some; destruct (decide (botId = k)); auto.
  - intros now botId a H. unfold optimizeBot.
    destruct (findBot botId (bots (dataManager a))) as [[j b]|]; [|done].
    destruct (botModels a !! botId) as [model|]; [|done].
    destruct (Js.lt _ 40); [|destruct (_ && _)]; cbn [fst botModels withBotModels];
      rewrite lookup_insert_is_Some; destruct (decide (botId = k)); auto.
Qed.

(** X21: in an engine built from a store, after any sequence of commands,
    the agent still holds a model for every bot of the fleet: its
    [optimizeBot] never answers [Bot not found] for an id of the fleet. *)
Theorem optimize_finds_every_bot (dm : DataManager) (cs : list (Time * Command))
  (now : Time) (botId : Z) :
  botId ∈ ids (bots dm) ->
  let e := performAll cs (newTradingEngine dm) in
  is_Some (botModels (aiAgent e) !! botId) /\
  success (snd (optimizeBot now botId (aiAgent e))) = true.
Proof.
  intros Hin e.
  assert (Hmodel : is_Some (botModels (aiAgent e) !! botId)).
  { apply models_kept. cbn. rewrite initial_models. by rewrite decide_True. }
  split; [done|].
  assert (Hbot : botId ∈ ids (bots (engineData e))).
  { subst e. by rewrite ids_kept. }
  destruct (findBot_elem _ _ Hbot) as (j & b & Hf). destruct Hmodel as [model Hm].
  unfold optimizeBot. fold (engineData e). rewrite Hf, Hm.
  by destruct (Js.lt _ 40); [|destruct (_ && _)].
Qed.

Lemma optimize_finds_every_bot_witness :
  let e := performAll busyCommands (newTradingEngine defaultData) in
  is_Some (botModels (aiAgent e) !! 4%Z) /\
  success (snd (optimizeBot 9 4 (aiAgent e))) = true.
Proof.
  apply (optimize_finds_every_bot defaultData busyCommands 9 4).
  apply (bool_decide_unpack (4%Z ∈ ids (bots defaultData))). vm_compute. exact I.
Defined.

Lemma confidence_range_observe ma a :
  60 <= overallConfidence (Monitor.updateConfidence (withMarketAnalysis ma a)) <= 95.
Proof.
  unfold Monitor.updateConfidence.
  cbn [overallConfidence withOverallConfidence marketAnalysis withMarketAnalysis].
  destruct ma as [ma|]; [|split; vm_compute; discriminate].
  compare_cases; split; vm_compute; discriminate.
Qed.

(** X22: in an engine built from a store, the overall confidence is between
    60 and 95 after any sequence of commands, whatever analyses the monitor
    stores: only an observation changes it, and the clamp to [20, 95]
    never acts. *)
Theorem confidence_stays_in_range (dm : DataManager) (cs : list (Time * Command)) :
  60 <= overallConfidence (aiAgent (performAll cs (newTradingEngine dm))) <= 95.
Proof.
  apply (InvA_performAll (fun a => 60 <= overallConfidence a <= 95)); try done.
  - intros now botId decision profit a H. unfold learnFromTrade.
    destruct (botModels a !! botId) as [model|]; [|done].
    unfold updateBotModel. cbn [botModels withBotModels]. rewrite lookup_insert_eq.
    by destruct (_ <? _)%nat.
  - intros now botId a H. unfold optimizeBot.
    destruct (findBot botId (bots (dataManager a))) as [[j b]|]; [|done].
    destruct (botModels a !! botId) as [model|]; [|done].
    by destruct (Js.lt _ 40); [|destruct (_ && _)].
  - intros ma a _. apply confidence_range_observe.
Qed.
